(** * Prompt builders and dispatch of [gpt_researcher/prompts.py]

    A shallow embedding of the [PromptFamily] class, of the two lookup
    tables and of the two resolution functions, followed by the properties
    that the specification states about them.

    Python [str] values are [string]s; an f-string is the list of its
    literal parts and replacement fields, joined in order; Python [int] is
    [Z]; [warnings.warn] and [raise] are made explicit in a small
    writer/exception monad. *)

From Stdlib Require Import ZArith List String Ascii Bool Lia.
From Stdlib Require Import Numbers.DecimalString.
Import ListNotations.
Open Scope string_scope.

(** ** Text *)

(** The two characters that cannot be written inside a literal here. *)
Definition nl : string := String (ascii_of_nat 10) EmptyString.
Definition dq : string := String (ascii_of_nat 34) EmptyString.

(** [s.startswith(p)]. *)
Fixpoint starts_with (p s : string) : bool :=
  match p, s with
  | EmptyString, _ => true
  | String a p', String b s' => Ascii.eqb a b && starts_with p' s'
  | String _ _, EmptyString => false
  end.

(** [n in s]: the text [n] occurs in [s]. *)
Fixpoint contains (n s : string) : bool :=
  starts_with n s ||
  match s with
  | EmptyString => false
  | String _ s' => contains n s'
  end.

(** [c in s] for a single character. *)
Fixpoint has_char (c : ascii) (s : string) : bool :=
  match s with
  | EmptyString => false
  | String a s' => Ascii.eqb c a || has_char c s'
  end.

(** [sep.join(items)]. *)
Fixpoint join (sep : string) (items : list string) : string :=
  match items with
  | [] => EmptyString
  | [x] => x
  | x :: r => x ++ sep ++ join sep r
  end.

(** A text all of whose bytes are below 128. *)
Fixpoint is_ascii (s : string) : bool :=
  match s with
  | EmptyString => true
  | String c s' => (nat_of_ascii c <? 128)%nat && is_ascii s'
  end.

(** [s.upper()] on ASCII text: the letters a-z move to A-Z, every other
    character stays. Python's [str.upper] also moves the letters outside
    ASCII, and may lengthen the text; this function leaves their bytes in
    place, so it is [s.upper()] exactly on the texts that [is_ascii]
    accepts. Like [str.upper], it neither adds nor removes a line break
    or a [#]. *)
Definition upper_char (c : ascii) : ascii :=
  let n := nat_of_ascii c in
  if (97 <=? n)%nat && (n <=? 122)%nat then ascii_of_nat (n - 32) else c.

Fixpoint upper (s : string) : string :=
  match s with
  | EmptyString => EmptyString
  | String c s' => String (upper_char c) (upper s')
  end.

(** [s.split("\n")]: the lines of a text. *)
Fixpoint lines (s : string) : list string :=
  match s with
  | EmptyString => [EmptyString]
  | String c s' =>
      if Ascii.eqb c (ascii_of_nat 10) then EmptyString :: lines s'
      else match lines s' with
           | l :: ls => String c l :: ls
           | [] => [String c EmptyString]
           end
  end.

(** A Markdown top-level heading line: one [#] followed by a character
    that is not [#]. *)
Definition is_top_level_heading (line : string) : bool :=
  match line with
  | String a (String b _) =>
      Ascii.eqb a (ascii_of_nat 35) && negb (Ascii.eqb b (ascii_of_nat 35))
  | _ => false
  end.

Definition has_top_level_heading (s : string) : bool :=
  existsb is_top_level_heading (lines s).

(** *** f-strings *)

(** The parts of an f-string, as in Python's own syntax tree: literal text
    and replacement fields. A field holds the text its expression formats
    to. *)
Inductive fpart : Type :=
| Const (s : string)
| Field (s : string).

Coercion Const : string >-> fpart.

Definition part_text (p : fpart) : string :=
  match p with Const s => s | Field s => s end.

Fixpoint fstring (ps : list fpart) : string :=
  match ps with
  | [] => EmptyString
  | p :: r => part_text p ++ fstring r
  end.

Notation "'f[' x ; .. ; y ']'" :=
  (fstring (cons (x : fpart) .. (cons (y : fpart) nil) ..))
  (at level 0, x at level 200, y at level 200).

(** The texts of the replacement fields, in order. *)
Fixpoint fields (ps : list fpart) : list string :=
  match ps with
  | [] => []
  | Field x :: r => x :: fields r
  | Const _ :: r => fields r
  end.

(** Adjacent literal parts glued together. *)
Fixpoint merge (ps : list fpart) : list fpart :=
  match ps with
  | [] => []
  | Field x :: r => Field x :: merge r
  | Const a :: r =>
      match merge r with
      | Const b :: r' => Const (a ++ b) :: r'
      | r' => Const a :: r'
      end
  end.

(** [any_tail P s]: some non-empty suffix of [s] satisfies [P]. *)
Fixpoint any_tail (P : string -> bool) (s : string) : bool :=
  match s with
  | EmptyString => false
  | String _ s' => P s || any_tail P s'
  end.

(** No occurrence of [n] ends inside the literal [s]: [n] does not occur
    in [s] and [s] does not begin with an end of [n]. *)
Definition lit_in (n s : string) : bool :=
  negb (contains n s) && negb (any_tail (fun t => starts_with t s) n).

(** No occurrence of [n] is under way after the literal [s]: [s] does not
    occur in [n] and does not end with a beginning of [n]. *)
Definition lit_out (n s : string) : bool :=
  negb (contains s n) && negb (any_tail (fun t => starts_with t n) s).

(** No occurrence of [n] can touch a literal of the template, and every
    field directly follows a literal after which none is under way. *)
Fixpoint safeb (n : string) (good : bool) (ps : list fpart) : bool :=
  match ps with
  | [] => true
  | Const s :: r => lit_in n s && safeb n (lit_out n s) r
  | Field _ :: r => good && safeb n false r
  end.

(** [s.endswith(p)]. *)
Fixpoint ends_with (p s : string) : bool :=
  String.eqb p s ||
  match s with
  | EmptyString => false
  | String _ s' => ends_with p s'
  end.

(** Occurrence of a text inside another, as a proposition. *)
Definition Occ (n s : string) : Prop := exists l r, s = l ++ n ++ r.

(** Some non-empty end of [t] is a beginning of [n]: a match of [n] may be
    under way at the end of [t]. *)
Definition Pending (n t : string) : Prop :=
  exists m, m <> EmptyString /\ (exists l, t = l ++ m) /\ (exists r, n = m ++ r).

Definition Good (n t : string) : Prop := ~ Occ n t /\ ~ Pending n t.

(** *** [str()] *)

(** The texts that non-text values format to inside a replacement field. *)
Class Str (A : Type) : Type := str : A -> string.

(** Decimal rendering of an [int]. *)
#[export] Instance Str_int : Str Z :=
  fun z => NilZero.string_of_int (Z.to_int z).

(** [None] formats to the word None, a text to itself. *)
#[export] Instance Str_option : Str (option string) :=
  fun o => match o with Some s => s | None => "None" end.

Fixpoint zeros (n : nat) : string :=
  match n with
  | O => EmptyString
  | S k => String "0" (zeros k)
  end.

(** [s.zfill(width)] for the rendering of a non-negative number. *)
Definition zfill (width : nat) (s : string) : string :=
  zeros (width - String.length s) ++ s.

(** The characters that the rendering of a number can hold. *)
Definition digit_or_minus (c : ascii) : bool :=
  has_char c "0123456789-".

(** ** The clock *)

Record date : Type := mkdate { year : Z; month : Z; day : Z }.

Record datetime : Type := mkdatetime {
  dt_date : date;
  hour : Z; minute : Z; second : Z; microsecond : Z
}.

(** What the process observes of the wall clock: [date.today()] and
    [datetime.now(timezone.utc)]. *)
Record Clock : Type := mkClock {
  date_today : date;
  datetime_now_utc : datetime
}.

(** [str(d)] is the ISO form YYYY-MM-DD. *)
#[export] Instance Str_date : Str date :=
  fun d => zfill 4 (str (year d)) ++ "-" ++ zfill 2 (str (month d))
           ++ "-" ++ zfill 2 (str (day d)).

Definition month_names : list string :=
  [ "January"; "February"; "March"; "April"; "May"; "June"; "July";
    "August"; "September"; "October"; "November"; "December" ].

Definition month_name (m : Z) : string :=
  nth (Z.to_nat (m - 1)) month_names EmptyString.

(** [dt.strftime('%B %d, %Y')]: full month name, two-digit day, year. Only
    the date of [dt] is read. *)
Definition strftime_B_d_Y (dt : datetime) : string :=
  month_name (month (dt_date dt)) ++ " " ++ zfill 2 (str (day (dt_date dt)))
  ++ ", " ++ str (year (dt_date dt)).

(** ** Enumerations of [utils/enum.py] *)

(** Modelled from the spec: [Tone] is a closed enumeration declared outside
    this file; a member is represented by the text of its [.value]. *)
Record Tone : Type := mkTone { Tone_value : string }.

(** Modelled from the spec: [PromptFamilyEnum] is declared outside this
    file; a member is represented by its [.value], the family name. *)
Record PromptFamilyEnum : Type := mkPromptFamilyEnum { PromptFamilyEnum_value : string }.

(** Modelled from the spec: the values of [ReportSource.Web] and of the six
    [ReportType] members that key the dispatch table, as section 6 of the
    specification lists them. *)
Definition ReportSource_Web_value : string := "web".
Definition ReportType_ResearchReport_value : string := "research_report".
Definition ReportType_ResourceReport_value : string := "resource_report".
Definition ReportType_OutlineReport_value : string := "outline_report".
Definition ReportType_CustomReport_value : string := "custom_report".
Definition ReportType_SubtopicReport_value : string := "subtopic_report".
Definition ReportType_DeepResearch_value : string := "deep_research".

(** ** Python values used by the builders *)

(** A dict with text keys, in insertion order. *)
Definition dict (V : Type) : Type := list (string * V).

(** [d.get(k)]. *)
Fixpoint dict_get {V : Type} (d : dict V) (k : string) : option V :=
  match d with
  | [] => None
  | (k', v) :: r => if String.eqb k k' then Some v else dict_get r k
  end.

Definition dict_keys {V : Type} (d : dict V) : list string := map fst d.

(** [range(n)]. *)
Definition range (n : Z) : list Z := map Z.of_nat (seq 0 (Z.to_nat n)).

(** A langchain [Document]: its text and its metadata, whose values are
    represented by the texts they format to. *)
Record Document : Type := mkDocument {
  page_content : string;
  metadata : dict string
}.

(** A selected tool is either an object exposing [.name] or anything else,
    represented by what [str(tool)] gives. *)
Inductive Tool : Type :=
| ToolWithName (name : string)
| ToolOther (text : string).

(** ** The class [PromptFamily]

    Each static method is a function of its arguments; the methods that
    read the clock take the observation [clk] as a last argument. Values
    whose type the source leaves open ([context], [sources],
    [existing_headers], ...) are represented by the text they format to.
    Default argument values are left to the caller. *)
Module PromptFamily.
Section Methods.

(** Tool and search-context metadata are dicts that only the standard
    library's serializers look into: [json.dumps(_, indent=2)] and the
    [str()] of a list. *)
Variable Dict : Type.
Variable json_dumps_indent2 : list Dict -> string.
Variable repr_list_dict : list Dict -> string.
Variable repr_list_str : list string -> string.
(** [ReportType.DetailedReport.value], which the specification does not
    spell out. *)
Variable ReportType_DetailedReport_value : string.

Definition generate_mcp_tool_selection_prompt
    (query : string) (tools_info : list Dict) (max_tools : Z) : string :=
  f[ "You are a research assistant helping to select the most relevant tools for a research query."; nl;
     nl;
     "RESEARCH QUERY: "; dq; Field query; dq; nl;
     nl;
     "AVAILABLE TOOLS:"; nl;
     Field (json_dumps_indent2 tools_info); nl;
     nl;
     "TASK: Analyze the tools and select EXACTLY "; Field (str max_tools); " tools that are most relevant for researching the given query."; nl;
     nl;
     "SELECTION CRITERIA:"; nl;
     "- Choose tools that can provide information, data, or insights related to the query"; nl;
     "- Prioritize tools that can search, retrieve, or access relevant content"; nl;
     "- Consider tools that complement each other (e.g., different data sources)"; nl;
     "- Exclude tools that are clearly unrelated to the research topic"; nl;
     nl;
     "Return a JSON object with this exact format:"; nl;
     "{"; nl;
     "  "; dq; "selected_tools"; dq; ": ["; nl;
     "    {"; nl;
     "      "; dq; "index"; dq; ": 0,"; nl;
     "      "; dq; "name"; dq; ": "; dq; "tool_name"; dq; ","; nl;
     "      "; dq; "relevance_score"; dq; ": 9,"; nl;
     "      "; dq; "reason"; dq; ": "; dq; "Detailed explanation of why this tool is relevant"; dq; nl;
     "    }"; nl;
     "  ],"; nl;
     "  "; dq; "selection_reasoning"; dq; ": "; dq; "Overall explanation of the selection strategy"; dq; nl;
     "}"; nl;
     nl;
     "Select exactly "; Field (str max_tools); " tools, ranked by relevance to the research query."; nl ].

Definition generate_mcp_research_prompt
    (query : string) (selected_tools : list Tool) : string :=
  let tool_names :=
    map (fun tool => match tool with
                     | ToolWithName name => name
                     | ToolOther text => text
                     end) selected_tools in
  f[ "You are a research assistant with access to specialized tools. Your task is to research the following query and provide comprehensive, accurate information."; nl;
     nl;
     "RESEARCH QUERY: "; dq; Field query; dq; nl;
     nl;
     "INSTRUCTIONS:"; nl;
     "1. Use the available tools to gather relevant information about the query"; nl;
     "2. Call multiple tools if needed to get comprehensive coverage"; nl;
     "3. If a tool call fails or returns empty results, try alternative approaches"; nl;
     "4. Synthesize information from multiple sources when possible"; nl;
     "5. Focus on factual, relevant information that directly addresses the query"; nl;
     nl;
     "AVAILABLE TOOLS: "; Field (repr_list_str tool_names); nl;
     nl;
     "Please conduct thorough research and provide your findings. Use the tools strategically to gather the most relevant and comprehensive information." ].

Definition generate_search_queries_prompt
    (question parent_query report_type : string) (max_iterations : Z)
    (context : list Dict) (clk : Clock) : string :=
  let task :=
    if String.eqb report_type ReportType_DetailedReport_value
       || String.eqb report_type ReportType_SubtopicReport_value
    then f[ Field parent_query; " - "; Field question ]
    else question in
  let context_prompt :=
    match context with
    | _ :: _ =>
      f[ nl;
         "You are a specialized retail real estate acquisitions research assistant. Your task is to generate comprehensive search queries for: "; dq; Field task; dq; "."; nl;
         nl;
         "The query should specify a tenant/store name and an address/city/state. Parse this information and generate search queries that cover ALL critical dimensions for acquisition analysis:"; nl;
         nl;
         "Context: "; Field (repr_list_dict context); nl;
         nl;
         "Use this context to inform and refine your search queries. The context provides real-time web information that can help you generate more specific and relevant queries. Consider any current events, recent developments, or specific details mentioned in the context that could enhance the search queries."; nl ]
    | [] =>
      f[ nl;
         "You are a specialized retail real estate acquisitions research assistant generating search queries for: "; dq; Field task; dq; "."; nl;
         nl;
         "The query should specify a tenant/store name and an address/city/state. Parse this information and create queries covering ALL dimensions."; nl ]
    end in
  let dynamic_example :=
    join ", " (map (fun i : Z => f[ dq; "query "; Field (str (i + 1)%Z); dq ]) (range max_iterations)) in
  f[ "Generate "; Field (str max_iterations); " strategic search queries for retail real estate acquisition due diligence on: "; dq; Field task; dq; nl;
     nl;
     Field context_prompt; nl;
     nl;
     "CRITICAL: Parse the tenant/store name and location (address/city/state) from the query, then generate searches covering these dimensions:"; nl;
     "1. TENANT SCREENING: Credit ratings, brand strength, financial performance, store openings/closures, expansion/contraction plans, lease renewal rates, CEO changes, restructuring"; nl;
     "2. LEASE ANALYSIS: Lease structure (NNN, FSG, Modified Gross), lease terms, rent roll, escalation clauses, expense pass-throughs"; nl;
     "3. LOCATION QUALITY: Demographics, household income, retail demand drivers, foot traffic, walkability scores, livability scores, crime rates"; nl;
     "4. MARKET BENCHMARK: Lease comps, cap rates, occupancy rates, market lease rates, cap rate trends"; nl;
     "5. ASSET QUALITY: Building class (A/B/C), age and condition, ESG certifications (LEED, WELL, GRESB)"; nl;
     "6. ECONOMIC ANALYSIS: Local employment, economic indicators, business activity, consumer spending patterns"; nl;
     "7. COMPETITIVE LANDSCAPE: Nearby competitors, market saturation, similar retailers in area"; nl;
     "8. DEVELOPMENT ACTIVITY: New construction, zoning changes, multifamily projects, grand openings, residential development permits"; nl;
     "9. MACRO TRENDS: Interest rates, cap rate trends, retail sector health, consumer behavior trends"; nl;
     nl;
     "Example Search Query Patterns:"; nl;
     "- "; dq; "[tenant name] credit rating [current year]"; dq; nl;
     "- "; dq; "[tenant name] lease renewal rate investment grade"; dq; nl;
     "- "; dq; "[tenant name] NNN lease structure expansion"; dq; nl;
     "- "; dq; "[tenant name] store closures CEO change financial performance"; dq; nl;
     "- "; dq; "[property address] walkability score crime rate"; dq; nl;
     "- "; dq; "[city/neighborhood name] demographics household income livability"; dq; nl;
     "- "; dq; "[city/neighborhood name] retail lease comps cap rates [current year]"; dq; nl;
     "- "; dq; "[city/neighborhood name] new residential development multifamily breaking ground"; dq; nl;
     "- "; dq; "[city/neighborhood name] economic indicators employment consumer spending"; dq; nl;
     "- "; dq; "[retail sector] trends consumer behavior [current year]"; dq; nl;
     "- "; dq; "[tenant category] competitors [city/neighborhood]"; dq; nl;
     "- "; dq; "[property address] ESG certification LEED WELL GRESB"; dq; nl;
     "- "; dq; "[city/state] cap rate trends interest rates [current year]"; dq; nl;
     "- "; dq; "[city/neighborhood name] zoning changes infrastructure improvements"; dq; nl;
     nl;
     "Real Acquisition Manager Search Examples (from institutional net lease REIT methodology):"; nl;
     "- "; dq; "Kroger credit rating delivery centers closure investment grade"; dq; nl;
     "- "; dq; "CarMax CEO change financial performance lease renewal"; dq; nl;
     "- "; dq; "PNC Bank branch expansion strategy NNN lease"; dq; nl;
     "- "; dq; "Publix growth strategy Florida demographics household penetration"; dq; nl;
     "- "; dq; "[city name] new multifamily development breaking ground permits"; dq; nl;
     "- "; dq; "[neighborhood name] residential development demographics income trends"; dq; nl;
     "- "; dq; "[property address] Boulder Group net lease cap rates"; dq; nl;
     "- "; dq; "[tenant name] Numerator consumer trends brand performance"; dq; nl;
     "- "; dq; "[property address] IPA Commercial lease rates market comps"; dq; nl;
     "- "; dq; "[property address] GRESB ESG certification walkability"; dq; nl;
     nl;
     "NOTE: Replace placeholders like [tenant name], [property address], [city name], [neighborhood name], [retail sector], [tenant category] with actual parsed values from the research query."; nl;
     nl;
     "Assume the current date is "; Field (strftime_B_d_Y (datetime_now_utc clk)); " if required."; nl;
     nl;
     "You MUST respond with a list of strings in the following format: ["; Field dynamic_example; "]."; nl;
     "The response should contain ONLY the list of search query strings, nothing else."; nl ].

Definition generate_report_prompt
    (question context report_source report_format : string)
    (total_words : Z) (tone : option Tone) (language : string)
    (clk : Clock) : string :=
  let reference_prompt :=
    if String.eqb report_source ReportSource_Web_value then
      f[ nl;
         "You MUST write all used source urls at the end of the report as references, and make sure to not add duplicated sources, but only one reference for each."; nl;
         "Every url should be hyperlinked: [url website](url)"; nl;
         "Additionally, you MUST include hyperlinks to the relevant URLs wherever they are referenced in the report:"; nl;
         nl;
         "eg: Author, A. A. (Year, Month Date). Title of web page. Website Name. [url website](url)"; nl ]
    else
      f[ nl;
         "You MUST write all used source document names at the end of the report as references, and make sure to not add duplicated sources, but only one reference for each."; dq; nl ] in
  let tone_prompt :=
    match tone with
    | Some tone => f[ "Write the report in a "; Field (Tone_value tone); " tone." ]
    | None => EmptyString
    end in
  f[ nl;
     "Information: "; dq; Field context; dq; nl;
     "---"; nl;
     "You are a senior retail real estate acquisitions analyst following the rigorous methodology of a net lease REIT acquisition manager. Using the above information, generate a comprehensive acquisition due diligence report for: "; dq; Field question; dq; nl;
     nl;
     "The report should provide a thorough analysis for evaluating this retail location acquisition opportunity. It must be well-structured, data-driven, and comprehensive, with at least "; Field (str total_words); " words."; nl;
     nl;
     "REQUIRED REPORT STRUCTURE - Organize findings into these key sections:"; nl;
     nl;
     "## Executive Summary"; nl;
     "Brief overview of the tenant, location, asset quality, and acquisition recommendation with key highlights"; nl;
     nl;
     "## Tenant Analysis"; nl;
     "- Company financial health and credit ratings (investment grade preferred)"; nl;
     "- Brand strength and consumer trends (top-performing brands, household penetration)"; nl;
     "- Recent corporate developments (CEO changes, restructuring, expansions/closures)"; nl;
     "- Store performance and growth strategy"; nl;
     "- Lease renewal rates and tenant stability indicators"; nl;
     "- Historical performance and growth trajectory"; nl;
     nl;
     "## Location Quality and Market Analysis (CRITICAL - Highest Priority)"; nl;
     "- Detailed demographics: population, household income, age distribution"; nl;
     "- Walkability and livability scores (community engagement factors)"; nl;
     "- Crime rates and neighborhood safety"; nl;
     "- Retail demand drivers: foot traffic, nearby anchors, accessibility"; nl;
     "- Market lease rates and comparisons (cite IPA Commercial, Boulder Group when available)"; nl;
     "- Cap rate trends and market context (note recent movements)"; nl;
     "- Competitive positioning: visibility, accessibility, parking"; nl;
     "- Residential development activity: new multifamily projects, breaking ground, permits"; nl;
     "- Neighborhood characteristics and quality indicators"; nl;
     "- Population growth trends and projections"; nl;
     nl;
     "## Lease Structure and Terms"; nl;
     "- Lease type: NNN (Net Lease), FSG (Full Service Gross), or Modified Gross"; nl;
     "- Lease duration and renewal options"; nl;
     "- Rent escalations and terms"; nl;
     "- Expense pass-throughs"; nl;
     "- Below-market rent potential for upside"; nl;
     "- Comparison to market lease comps"; nl;
     nl;
     "## Asset Quality and ESG Considerations"; nl;
     "- Building class (A, B, or C)"; nl;
     "- Age and condition of the property"; nl;
     "- Physical obsolescence or recent renovations"; nl;
     "- ESG certifications: LEED, WELL, or GRESB ratings"; nl;
     "- Energy efficiency and sustainability features"; nl;
     "- ESG lease clauses (energy, water, waste management)"; nl;
     "- Long-term asset value enhancement potential"; nl;
     nl;
     "## Economic Analysis"; nl;
     "- Local employment indicators and job market"; nl;
     "- Economic health of the area"; nl;
     "- Business activity and commercial development"; nl;
     "- Consumer spending patterns by income segment (high-income vs. low-income households)"; nl;
     nl;
     "## Competitive Landscape"; nl;
     "- Nearby competitors in the same retail category"; nl;
     "- Market saturation analysis"; nl;
     "- Competitive advantages/disadvantages of the location"; nl;
     "- Similar tenants in the area"; nl;
     nl;
     "## Sector & Industry Trends"; nl;
     "- Retail sector performance and trends (cite Numerator, industry publications when available)"; nl;
     "- Category-specific dynamics"; nl;
     "- Consumer behavior trends (experiential, community-based retail)"; nl;
     "- Industry challenges and opportunities"; nl;
     "- Relevant sector news affecting the tenant type"; nl;
     nl;
     "## Development & Zoning"; nl;
     "- New construction and development projects"; nl;
     "- Zoning changes or planning updates"; nl;
     "- Infrastructure improvements"; nl;
     "- Grand openings of complementary businesses"; nl;
     nl;
     "## Macro-Economic and Market Risk Assessment"; nl;
     "- Interest rate environment and cap rate impacts"; nl;
     "- Federal Reserve policy trends"; nl;
     "- Consumer sentiment and retail sector health"; nl;
     "- High-income vs. low-income segment performance"; nl;
     "- Supply/demand balance in the market"; nl;
     nl;
     "## Risk Assessment"; nl;
     "- Key risks identified from the research"; nl;
     "- Mitigation strategies"; nl;
     "- Red flags or concerns"; nl;
     "- Demographic and economic headwinds"; nl;
     nl;
     "## Scoring and Investment Analysis"; nl;
     "Present a weighted scoring breakdown (use table format):"; nl;
     "- Tenant credit and performance (30% weight)"; nl;
     "- Location quality and market dynamics (30% weight)"; nl;
     "- Asset quality and ESG compliance (20% weight)"; nl;
     "- Lease structure and terms (10% weight)"; nl;
     "- Macro-economic risk (10% weight)"; nl;
     nl;
     "## Acquisition Recommendation"; nl;
     "- Clear recommendation (proceed/reconsider/decline)"; nl;
     "- Key supporting factors based on scoring"; nl;
     "- Projected returns and alignment with portfolio strategy"; nl;
     "- Conditions or caveats"; nl;
     "- Risk mitigation strategies for proceeding"; nl;
     nl;
     "Please follow all of the following guidelines:"; nl;
     "- You MUST determine a concrete acquisition recommendation based on the data. Do NOT provide vague conclusions."; nl;
     "- You MUST write the report with markdown syntax and "; Field report_format; " format."; nl;
     "- Structure your report with clear markdown headers: use # for the main title, ## for major sections, and ### for subsections."; nl;
     "- Use markdown tables when presenting structured data, demographics, comparisons, or scoring to enhance readability."; nl;
     "- PRIORITIZE location quality (demographics, walkability, development activity) and tenant creditworthiness - these are critical for acquisition decisions."; nl;
     "- You MUST prioritize the relevance, reliability, and significance of the sources. Trusted sources include: Boulder Group, IPA Commercial, GRESB, Numerator, SEC filings, credit rating agencies."; nl;
     "- Prioritize recent articles and data from the past 12 months when available."; nl;
     "- You MUST NOT include a table of contents, but DO include proper markdown headers (# ## ###)."; nl;
     "- Use in-text citation references in "; Field report_format; " format with markdown hyperlinks: ([in-text citation](url))."; nl;
     "- Include specific data points, numbers, statistics, and dates whenever available."; nl;
     "- Don't forget to add a reference list at the end of the report in "; Field report_format; " format."; nl;
     "- "; Field reference_prompt; nl;
     "- "; Field tone_prompt; nl;
     nl;
     "You MUST write the report in the following language: "; Field language; "."; nl;
     "This acquisition analysis is critical for investment decisions and follows best practices for net lease retail real estate due diligence."; nl;
     "Assume that the current date is "; Field (str (date_today clk)); "."; nl ].

Definition curate_sources (query sources : string) (max_results : Z) : string :=
  f[ "Your goal is to evaluate and curate the provided scraped content for the research task: "; dq; Field query; dq; nl;
     "    while prioritizing the inclusion of relevant and high-quality information, especially sources containing statistics, numbers, or concrete data."; nl;
     nl;
     "The final curated list will be used as context for creating a research report, so prioritize:"; nl;
     "- Retaining as much original information as possible, with extra emphasis on sources featuring quantitative data or unique insights"; nl;
     "- Including a wide range of perspectives and insights"; nl;
     "- Filtering out only clearly irrelevant or unusable content"; nl;
     nl;
     "EVALUATION GUIDELINES:"; nl;
     "1. Assess each source based on:"; nl;
     "   - Relevance: Include sources directly or partially connected to the research query. Err on the side of inclusion."; nl;
     "   - Credibility: Favor authoritative sources but retain others unless clearly untrustworthy."; nl;
     "   - Currency: Prefer recent information unless older data is essential or valuable."; nl;
     "   - Objectivity: Retain sources with bias if they provide a unique or complementary perspective."; nl;
     "   - Quantitative Value: Give higher priority to sources with statistics, numbers, or other concrete data."; nl;
     "2. Source Selection:"; nl;
     "   - Include as many relevant sources as possible, up to "; Field (str max_results); ", focusing on broad coverage and diversity."; nl;
     "   - Prioritize sources with statistics, numerical data, or verifiable facts."; nl;
     "   - Overlapping content is acceptable if it adds depth, especially when data is involved."; nl;
     "   - Exclude sources only if they are entirely irrelevant, severely outdated, or unusable due to poor content quality."; nl;
     "3. Content Retention:"; nl;
     "   - DO NOT rewrite, summarize, or condense any source content."; nl;
     "   - Retain all usable information, cleaning up only clear garbage or formatting issues."; nl;
     "   - Keep marginally relevant or incomplete sources if they contain valuable data or insights."; nl;
     nl;
     "SOURCES LIST TO EVALUATE:"; nl;
     Field sources; nl;
     nl;
     "You MUST return your response in the EXACT sources JSON list format as the original sources."; nl;
     "The response MUST not contain any markdown format or additional text (like ```json), just the JSON list!"; nl ].

Definition generate_resource_report_prompt
    (question context report_source report_format : string)
    (tone : option Tone) (total_words : Z) (language : string) : string :=
  let reference_prompt :=
    if String.eqb report_source ReportSource_Web_value then
      f[ nl;
         "            You MUST include all relevant source urls."; nl;
         "            Every url should be hyperlinked: [url website](url)"; nl;
         "            " ]
    else
      f[ nl;
         "            You MUST write all used source document names at the end of the report as references, and make sure to not add duplicated sources, but only one reference for each."; dq; nl;
         "        " ] in
  f[ dq; dq; dq; Field context; dq; dq; dq; nl;
     nl;
     "Based on the above information, generate a bibliography recommendation report for the following question or topic: "; dq; Field question; dq; ". The report should provide a detailed analysis of each recommended resource, explaining how each source can contribute to finding answers to the research question."; nl;
     "Focus on the relevance, reliability, and significance of each source."; nl;
     "Ensure that the report is well-structured, informative, in-depth, and follows Markdown syntax."; nl;
     "Use markdown tables and other formatting features when appropriate to organize and present information clearly."; nl;
     "Include relevant facts, figures, and numbers whenever available."; nl;
     "The report should have a minimum length of "; Field (str total_words); " words."; nl;
     "You MUST write the report in the following language: "; Field language; "."; nl;
     "You MUST include all relevant source urls.Every url should be hyperlinked: [url website](url)"; Field reference_prompt ].

Definition generate_custom_report_prompt
    (query_prompt context report_source report_format : string)
    (tone : option Tone) (total_words : Z) (language : string) : string :=
  f[ dq; Field context; dq; nl;
     nl;
     Field query_prompt ].

Definition generate_outline_report_prompt
    (question context report_source report_format : string)
    (tone : option Tone) (total_words : Z) (language : string) : string :=
  f[ dq; dq; dq; Field context; dq; dq; dq; " Using the above information, generate an outline for a research report in Markdown syntax for the following question or topic: "; dq; Field question; dq; ". The outline should provide a well-structured framework for the research report, including the main sections, subsections, and key points to be covered. The research report should be detailed, informative, in-depth, and a minimum of "; Field (str total_words); " words. Use appropriate Markdown syntax to format the outline and ensure readability. Consider using markdown tables and other formatting features where they would enhance the presentation of information." ].

Definition generate_deep_research_prompt
    (question context report_source report_format : string)
    (tone : option Tone) (total_words : Z) (language : string)
    (clk : Clock) : string :=
  let reference_prompt :=
    if String.eqb report_source ReportSource_Web_value then
      f[ nl;
         "You MUST write all used source urls at the end of the report as references, and make sure to not add duplicated sources, but only one reference for each."; nl;
         "Every url should be hyperlinked: [url website](url)"; nl;
         "Additionally, you MUST include hyperlinks to the relevant URLs wherever they are referenced in the report:"; nl;
         nl;
         "eg: Author, A. A. (Year, Month Date). Title of web page. Website Name. [url website](url)"; nl ]
    else
      f[ nl;
         "You MUST write all used source document names at the end of the report as references, and make sure to not add duplicated sources, but only one reference for each."; dq; nl ] in
  let tone_prompt :=
    match tone with
    | Some tone => f[ "Write the report in a "; Field (Tone_value tone); " tone." ]
    | None => EmptyString
    end in
  f[ nl;
     "Using the following hierarchically researched information and citations:"; nl;
     nl;
     dq; Field context; dq; nl;
     nl;
     "Write a comprehensive research report answering the query: "; dq; Field question; dq; nl;
     nl;
     "The report should:"; nl;
     "1. Synthesize information from multiple levels of research depth"; nl;
     "2. Integrate findings from various research branches"; nl;
     "3. Present a coherent narrative that builds from foundational to advanced insights"; nl;
     "4. Maintain proper citation of sources throughout"; nl;
     "5. Be well-structured with clear sections and subsections"; nl;
     "6. Have a minimum length of "; Field (str total_words); " words"; nl;
     "7. Follow "; Field report_format; " format with markdown syntax"; nl;
     "8. Use markdown tables, lists and other formatting features when presenting comparative data, statistics, or structured information"; nl;
     nl;
     "Additional requirements:"; nl;
     "- Prioritize insights that emerged from deeper levels of research"; nl;
     "- Highlight connections between different research branches"; nl;
     "- Include relevant statistics, data, and concrete examples"; nl;
     "- You MUST determine your own concrete and valid opinion based on the given information. Do NOT defer to general and meaningless conclusions."; nl;
     "- You MUST prioritize the relevance, reliability, and significance of the sources you use. Choose trusted sources over less reliable ones."; nl;
     "- You must also prioritize new articles over older articles if the source can be trusted."; nl;
     "- Use in-text citation references in "; Field report_format; " format and make it with markdown hyperlink placed at the end of the sentence or paragraph that references them like this: ([in-text citation](url))."; nl;
     "- "; Field tone_prompt; nl;
     "- Write in "; Field language; nl;
     nl;
     Field reference_prompt; nl;
     nl;
     "Please write a thorough, well-researched report that synthesizes all the gathered information into a cohesive whole."; nl;
     "Assume the current date is "; Field (strftime_B_d_Y (datetime_now_utc clk)); "."; nl ].

Definition auto_agent_instructions : string :=
  f[ nl;
     "This task involves researching retail tenant locations for real estate acquisition analysis following a high-fidelity, institutional-grade methodology. The research query will always specify a tenant/store name and an address/city/state. Your role is to conduct comprehensive due diligence research as a senior retail real estate acquisitions analyst at a net lease REIT."; nl;
     nl;
     "Agent"; nl;
     "You are a ðŸ¢ Senior Retail Real Estate Acquisitions Agent - a specialized research assistant following the rigorous methodology used by top-performing net lease REITs to evaluate retail tenant locations for acquisition opportunities."; nl;
     nl;
     "Your agent role prompt should be:"; nl;
     "{"; nl;
     "    "; dq; "server"; dq; ": "; dq; "ðŸ¢ Senior Retail Real Estate Acquisitions Agent"; dq; ","; nl;
     "    "; dq; "agent_role_prompt"; dq; ": "; dq; "You are an expert senior retail real estate acquisitions analyst AI assistant modeled after acquisition managers at leading net lease REITs. Your goal is to conduct institutional-grade due diligence on retail tenant locations. You systematically analyze: tenant creditworthiness and brand strength; location quality (demographics, walkability, crime rates); asset quality and ESG credentials; lease structures and terms; market rates and cap trends; competitive landscape; and macro-economic factors. You synthesize data into structured scoring models and provide detailed reports with concrete acquisition recommendations evaluating investment viability and risk."; dq; nl;
     "}"; nl;
     nl;
     "Automated Research Workflow (Step-by-Step):"; nl;
     "1. TENANT SCREENING: Scrape news, SEC filings, earnings reports for tenant financials, credit ratings, expansion/contraction plans, lease renewal rates, brand strength"; nl;
     "2. LEASE ANALYSIS: Extract lease structure (NNN, FSG, Modified Gross), terms, rent roll, escalation clauses, expense pass-throughs"; nl;
     "3. MARKET BENCHMARK: Pull lease comps, cap rates, occupancy rates in the submarket from IPA Commercial, Boulder Group, CoStar"; nl;
     "4. DEMOGRAPHIC SCAN: Analyze census data, income levels, retail demand data, walkability scores, crime rates for the trade area"; nl;
     "5. ESG & ASSET REVIEW: Check for LEED, WELL, GRESB certifications; assess building class, age, condition, energy efficiency"; nl;
     "6. ECONOMIC ANALYSIS: Monitor local employment, consumer spending patterns, business activity"; nl;
     "7. COMPETITIVE LANDSCAPE: Identify nearby competitors, assess market saturation"; nl;
     "8. DEVELOPMENT ACTIVITY: Track new construction, zoning changes, multifamily projects, infrastructure improvements"; nl;
     "9. MACRO TRENDS: Monitor interest rates, cap rate trends, consumer behavior trends, retail sector health from Boulder Group, Numerator, Fed releases"; nl;
     "10. SYNTHESIS & SCORING: Aggregate findings into weighted scoring model (Tenant 30%, Location 30%, Asset 20%, Lease 10%, Macro 10%)"; nl;
     nl;
     "Research Focus Areas (Critical Dimensions):"; nl;
     "- Tenant/Company Analysis: Credit ratings (investment grade preferred), financial health, brand strength, household penetration, CEO changes, restructuring, store openings/closures, lease renewal rates"; nl;
     "- Location Quality: Demographics, household income, age distribution, walkability scores, livability scores, crime rates, foot traffic, nearby anchors, accessibility"; nl;
     "- Market Benchmark: Lease comps, cap rates, cap rate trends, market lease rates, occupancy rates"; nl;
     "- Lease Structure: NNN vs. FSG vs. Modified Gross, lease duration, renewal options, rent escalations, expense pass-throughs, below-market rent potential"; nl;
     "- Asset Quality: Building class (A/B/C), age and condition, renovations, physical obsolescence"; nl;
     "- ESG Considerations: LEED, WELL, GRESB certifications, energy efficiency, ESG lease clauses, sustainability features"; nl;
     "- Neighborhood Analysis: Residential development, multifamily projects, population growth, permits, neighborhood characteristics"; nl;
     "- Economic Analysis: Employment rates, economic indicators, local business activity, consumer spending by income segment"; nl;
     "- Competitive Analysis: Nearby competitors, market saturation, similar retailers in area, competitive positioning"; nl;
     "- Development Activity: New construction, zoning changes, infrastructure improvements, grand openings"; nl;
     "- Sector Trends: Industry-specific news, retail category performance, consumer behavior trends (experiential, community-based)"; nl;
     "- Macro Trends: Interest rates, Federal Reserve policy, consumer sentiment, supply/demand balance"; nl;
     nl;
     "Key Trusted Information Sources (Prioritize These):"; nl;
     "- Boulder Group: Net lease cap rate trends, market reports"; nl;
     "- IPA Commercial: Commercial real estate lease rates, market comps"; nl;
     "- GRESB: ESG certifications, walkability scores, livability metrics"; nl;
     "- Numerator: Consumer trends, brand performance, household penetration"; nl;
     "- SEC: Tenant financials, 10-K/10-Q filings, earnings reports"; nl;
     "- Credit rating agencies: Moody's, S&P, Fitch ratings"; nl;
     "- Census.gov: Demographics, population data"; nl;
     "- Local economic development agencies: Area economic indicators"; nl;
     "- Industry publications: RetailDive, CStoreDive, GroceryDive, National Real Estate Investor"; nl;
     "- Real estate analytics: CoStar (when available), offering memoranda"; nl;
     "- Zoning and planning department records"; nl;
     "- Company press releases and announcements"; nl;
     nl;
     "Analytical Methods to Apply:"; nl;
     "- Time-series analysis: Track rent and cap rate trends over time"; nl;
     "- Peer benchmarking: Compare tenant and asset to industry peers"; nl;
     "- Sentiment analysis: Analyze news and earnings call transcripts"; nl;
     "- ESG compliance scoring: Rate certifications and sustainability features"; nl;
     "- Weighted scoring model: 30% tenant, 30% location, 20% asset, 10% lease, 10% macro"; nl;
     nl;
     "Source Prioritization:"; nl;
     "- Prefer reports and data from the past 12 months for recency"; nl;
     "- Prioritize established, reliable sources (Boulder Group, IPA Commercial, GRESB, Numerator, SEC)"; nl;
     "- Verify data across multiple sources when possible"; nl;
     "- Weight quantitative data and statistics heavily"; nl;
     nl;
     "Strategic Imperatives (Acquisition Criteria):"; nl;
     "- Anchor assets with top-performing, creditworthy tenants (investment grade) in growth sectors"; nl;
     "- Prioritize locations with strong demographic tailwinds, high walkability, community engagement"; nl;
     "- Secure assets with robust ESG credentials and favorable lease structures (NNN, long term, escalations)"; nl;
     "- Monitor macro-economic shifts (interest rates, consumer sentiment) to adjust underwriting"; nl;
     "- Seek below-market rents for upside potential"; nl;
     "- Focus on markets with positive demographic and economic trends"; nl ].

Definition generate_summary_prompt (query data : string) : string :=
  f[ Field data; nl;
     " Using the above text, summarize it based on the following task or query: "; dq; Field query; dq; "."; nl;
     " If the query cannot be answered using the text, YOU MUST summarize the text in short."; nl;
     " Include all factual information such as numbers, stats, quotes, etc if available. " ].

Definition pretty_print_docs (docs : list Document) (top_n : option Z) : string :=
  join nl
    (map (fun '(i, d) =>
            f[ "Source: "; Field (str (dict_get (metadata d) "source")); nl;
               "Title: "; Field (str (dict_get (metadata d) "title")); nl;
               "Content: "; Field (page_content d); nl ])
       (filter (fun '(i, d) =>
                  match top_n with
                  | None => true
                  | Some n => (Z.of_nat i <? n)%Z
                  end)
          (combine (seq 0 (List.length docs)) docs))).

Definition join_local_web_documents (docs_context web_context : string) : string :=
  f[ "Context from local documents: "; Field docs_context; nl;
     nl;
     "Context from web sources: "; Field web_context ].

Definition generate_subtopics_prompt : string :=
  f[ nl;
     "Provided the main topic:"; nl;
     nl;
     "{task}"; nl;
     nl;
     "and research data:"; nl;
     nl;
     "{data}"; nl;
     nl;
     "- Construct a list of subtopics which indicate the headers of a report document to be generated on the task."; nl;
     "- These are a possible list of subtopics : {subtopics}."; nl;
     "- There should NOT be any duplicate subtopics."; nl;
     "- Limit the number of subtopics to a maximum of {max_subtopics}"; nl;
     "- Finally order the subtopics by their tasks, in a relevant and meaningful order which is presentable in a detailed report"; nl;
     nl;
     dq; "IMPORTANT!"; dq; ":"; nl;
     "- Every subtopic MUST be relevant to the main topic and provided research data ONLY!"; nl;
     nl;
     "{format_instructions}"; nl ].

Definition generate_subtopic_report_prompt
    (current_subtopic existing_headers relevant_written_contents : string)
    (main_topic context report_format : string)
    (max_subsections total_words : Z) (tone : Tone) (language : string)
    (clk : Clock) : string :=
  f[ nl;
     "Context:"; nl;
     dq; Field context; dq; nl;
     nl;
     "Main Topic and Subtopic:"; nl;
     "Using the latest information available, construct a detailed report on the subtopic: "; Field current_subtopic; " under the main topic: "; Field main_topic; "."; nl;
     "You must limit the number of subsections to a maximum of "; Field (str max_subsections); "."; nl;
     nl;
     "Content Focus:"; nl;
     "- The report should focus on answering the question, be well-structured, informative, in-depth, and include facts and numbers if available."; nl;
     "- Use markdown syntax and follow the "; Field (upper report_format); " format."; nl;
     "- When presenting data, comparisons, or structured information, use markdown tables to enhance readability."; nl;
     nl;
     "IMPORTANT:Content and Sections Uniqueness:"; nl;
     "- This part of the instructions is crucial to ensure the content is unique and does not overlap with existing reports."; nl;
     "- Carefully review the existing headers and existing written contents provided below before writing any new subsections."; nl;
     "- Prevent any content that is already covered in the existing written contents."; nl;
     "- Do not use any of the existing headers as the new subsection headers."; nl;
     "- Do not repeat any information already covered in the existing written contents or closely related variations to avoid duplicates."; nl;
     "- If you have nested subsections, ensure they are unique and not covered in the existing written contents."; nl;
     "- Ensure that your content is entirely new and does not overlap with any information already covered in the previous subtopic reports."; nl;
     nl;
     dq; "Existing Subtopic Reports"; dq; ":"; nl;
     "- Existing subtopic reports and their section headers:"; nl;
     nl;
     "    "; Field existing_headers; nl;
     nl;
     "- Existing written contents from previous subtopic reports:"; nl;
     nl;
     "    "; Field relevant_written_contents; nl;
     nl;
     dq; "Structure and Formatting"; dq; ":"; nl;
     "- As this sub-report will be part of a larger report, include only the main body divided into suitable subtopics without any introduction or conclusion section."; nl;
     nl;
     "- You MUST include markdown hyperlinks to relevant source URLs wherever referenced in the report, for example:"; nl;
     nl;
     "    ### Section Header"; nl;
     nl;
     "    This is a sample text ([in-text citation](url))."; nl;
     nl;
     "- Use H2 for the main subtopic header (##) and H3 for subsections (###)."; nl;
     "- Use smaller Markdown headers (e.g., H2 or H3) for content structure, avoiding the largest header (H1) as it will be used for the larger report's heading."; nl;
     "- Organize your content into distinct sections that complement but do not overlap with existing reports."; nl;
     "- When adding similar or identical subsections to your report, you should clearly indicate the differences between and the new content and the existing written content from previous subtopic reports. For example:"; nl;
     nl;
     "    ### New header (similar to existing header)"; nl;
     nl;
     "    While the previous section discussed [topic A], this section will explore [topic B]."; dq; nl;
     nl;
     dq; "Date"; dq; ":"; nl;
     "Assume the current date is "; Field (strftime_B_d_Y (datetime_now_utc clk)); " if required."; nl;
     nl;
     dq; "IMPORTANT!"; dq; ":"; nl;
     "- You MUST write the report in the following language: "; Field language; "."; nl;
     "- The focus MUST be on the main topic! You MUST Leave out any information un-related to it!"; nl;
     "- Must NOT have any introduction, conclusion, summary or reference section."; nl;
     "- You MUST use in-text citation references in "; Field (upper report_format); " format and make it with markdown hyperlink placed at the end of the sentence or paragraph that references them like this: ([in-text citation](url))."; nl;
     "- You MUST mention the difference between the existing content and the new content in the report if you are adding the similar or same subsections wherever necessary."; nl;
     "- The report should have a minimum length of "; Field (str total_words); " words."; nl;
     "- Use an "; Field (Tone_value tone); " tone throughout the report."; nl;
     nl;
     "Do NOT add a conclusion section."; nl ].

Definition generate_draft_titles_prompt
    (current_subtopic main_topic context : string) (max_subsections : Z) : string :=
  f[ nl;
     dq; "Context"; dq; ":"; nl;
     dq; Field context; dq; nl;
     nl;
     dq; "Main Topic and Subtopic"; dq; ":"; nl;
     "Using the latest information available, construct a draft section title headers for a detailed report on the subtopic: "; Field current_subtopic; " under the main topic: "; Field main_topic; "."; nl;
     nl;
     dq; "Task"; dq; ":"; nl;
     "1. Create a list of draft section title headers for the subtopic report."; nl;
     "2. Each header should be concise and relevant to the subtopic."; nl;
     "3. The header should't be too high level, but detailed enough to cover the main aspects of the subtopic."; nl;
     "4. Use markdown syntax for the headers, using H3 (###) as H1 and H2 will be used for the larger report's heading."; nl;
     "5. Ensure the headers cover main aspects of the subtopic."; nl;
     nl;
     dq; "Structure and Formatting"; dq; ":"; nl;
     "Provide the draft headers in a list format using markdown syntax, for example:"; nl;
     nl;
     "### Header 1"; nl;
     "### Header 2"; nl;
     "### Header 3"; nl;
     nl;
     dq; "IMPORTANT!"; dq; ":"; nl;
     "- The focus MUST be on the main topic! You MUST Leave out any information un-related to it!"; nl;
     "- Must NOT have any introduction, conclusion, summary or reference section."; nl;
     "- Focus solely on creating headers, not content."; nl ].

Definition generate_report_introduction
    (question research_summary language report_format : string)
    (clk : Clock) : string :=
  f[ Field research_summary; nl;
     nl;
     "Using the above latest information, Prepare a detailed report introduction on the topic -- "; Field question; "."; nl;
     "- The introduction should be succinct, well-structured, informative with markdown syntax."; nl;
     "- As this introduction will be part of a larger report, do NOT include any other sections, which are generally present in a report."; nl;
     "- The introduction should be preceded by an H1 heading with a suitable topic for the entire report."; nl;
     "- You must use in-text citation references in "; Field (upper report_format); " format and make it with markdown hyperlink placed at the end of the sentence or paragraph that references them like this: ([in-text citation](url))."; nl;
     "Assume that the current date is "; Field (strftime_B_d_Y (datetime_now_utc clk)); " if required."; nl;
     "- The output must be in "; Field language; " language."; nl ].

Definition generate_report_conclusion
    (query report_content language report_format : string) : string :=
  let prompt :=
    f[ nl;
       "    Based on the research report below and research task, please write a concise conclusion that summarizes the main findings and their implications:"; nl;
       nl;
       "    Research task: "; Field query; nl;
       nl;
       "    Research Report: "; Field report_content; nl;
       nl;
       "    Your conclusion should:"; nl;
       "    1. Recap the main points of the research"; nl;
       "    2. Highlight the most important findings"; nl;
       "    3. Discuss any implications or next steps"; nl;
       "    4. Be approximately 2-3 paragraphs long"; nl;
       nl;
       "    If there is no "; dq; "## Conclusion"; dq; " section title written at the end of the report, please add it to the top of your conclusion."; nl;
       "    You must use in-text citation references in "; Field (upper report_format); " format and make it with markdown hyperlink placed at the end of the sentence or paragraph that references them like this: ([in-text citation](url))."; nl;
       nl;
       "    IMPORTANT: The entire conclusion MUST be written in "; Field language; " language."; nl;
       nl;
       "    Write the conclusion:"; nl;
       "    " ] in
  prompt.

End Methods.
End PromptFamily.

(** ** Warnings and exceptions *)

Inductive exn : Type :=
| TypeError (msg : string)
| AttributeError (msg : string).

Inductive Warning : Type :=
| UserWarning (message : string).

(** A computation issues warnings, in order, and then returns a value or
    raises. *)
Definition M (A : Type) : Type := (list Warning * (exn + A))%type.

Definition ret {A : Type} (a : A) : M A := ([], inr a).
Definition raise {A : Type} (e : exn) : M A := ([], inl e).
Definition warn (w : Warning) : M unit := ([w], inr tt).

Definition bind {A B : Type} (m : M A) (k : A -> M B) : M B :=
  match m with
  | (ws, inl e) => (ws, inl e)
  | (ws, inr a) => let (ws', r) := k a in ((ws ++ ws')%list, r)
  end.

Notation "x <- m ;; k" := (bind m (fun x => k))
  (at level 61, m at next level, right associativity).
Notation "m ;; k" := (bind m (fun _ => k))
  (at level 61, right associativity).

Definition warnings {A : Type} (m : M A) : list Warning := fst m.
Definition outcome {A : Type} (m : M A) : exn + A := snd m.

(** ** Factory *)

(** The signature of the prompt generator functions, in the order of the
    source's [PROMPT_GENERATOR]: question, context, report_source,
    report_format, tone, total_words, language. The resource, custom,
    outline and deep-research generators declare their parameters in this
    order. *)
Definition PROMPT_GENERATOR : Type :=
  string -> string -> string -> string -> option Tone -> Z -> string ->
  Clock -> string.

(** [generate_report_prompt] declares [total_words] before [tone]:
    question, context, report_source, report_format, total_words, tone,
    language. Arguments handed over by position in the order of
    [PROMPT_GENERATOR] would reach it swapped. *)
Definition REPORT_PROMPT_GENERATOR : Type :=
  string -> string -> string -> string -> Z -> option Tone -> string ->
  Clock -> string.

(** The subtopic generator has its own parameter list: current_subtopic,
    existing_headers, relevant_written_contents, main_topic, context,
    report_format, max_subsections, total_words, tone, language. *)
Definition SUBTOPIC_GENERATOR : Type :=
  string -> string -> string -> string -> string -> string -> Z -> Z ->
  Tone -> string -> Clock -> string.

(** What attribute lookup of a generator name yields: a function, with
    the parameter list that its definition declares. *)
Inductive method : Type :=
| ReportPromptGenerator (g : REPORT_PROMPT_GENERATOR)
| ReportGenerator (g : PROMPT_GENERATOR)
| SubtopicGenerator (g : SUBTOPIC_GENERATOR).

(** A prompt family, class or instance, seen through the generators that
    the dispatch table names. A derived class keeps the names and may
    replace the functions. *)
Record family : Type := mkfamily {
  generate_report_prompt : REPORT_PROMPT_GENERATOR;
  generate_resource_report_prompt : PROMPT_GENERATOR;
  generate_outline_report_prompt : PROMPT_GENERATOR;
  generate_custom_report_prompt : PROMPT_GENERATOR;
  generate_subtopic_report_prompt : SUBTOPIC_GENERATOR;
  generate_deep_research_prompt : PROMPT_GENERATOR
}.

(** The base class: each name stands for the static method of that name,
    with its own parameter order. The resource, outline and custom
    generators do not read the clock. *)
Definition PromptFamily_methods : family := {|
  generate_report_prompt := PromptFamily.generate_report_prompt;
  generate_resource_report_prompt :=
    fun question context report_source report_format tone total_words language _ =>
      PromptFamily.generate_resource_report_prompt
        question context report_source report_format tone total_words language;
  generate_outline_report_prompt :=
    fun question context report_source report_format tone total_words language _ =>
      PromptFamily.generate_outline_report_prompt
        question context report_source report_format tone total_words language;
  generate_custom_report_prompt :=
    fun query_prompt context report_source report_format tone total_words language _ =>
      PromptFamily.generate_custom_report_prompt
        query_prompt context report_source report_format tone total_words language;
  generate_subtopic_report_prompt := PromptFamily.generate_subtopic_report_prompt;
  generate_deep_research_prompt := PromptFamily.generate_deep_research_prompt
|}.

(** [getattr(prompt_family, name, None)] for the names the factory looks
    up: the values of the dispatch table and the empty text, which names
    no attribute. *)
Definition getattr_or_None (prompt_family : family) (name : string) : option method :=
  if String.eqb name "generate_report_prompt" then
    Some (ReportPromptGenerator (generate_report_prompt prompt_family))
  else if String.eqb name "generate_resource_report_prompt" then
    Some (ReportGenerator (generate_resource_report_prompt prompt_family))
  else if String.eqb name "generate_outline_report_prompt" then
    Some (ReportGenerator (generate_outline_report_prompt prompt_family))
  else if String.eqb name "generate_custom_report_prompt" then
    Some (ReportGenerator (generate_custom_report_prompt prompt_family))
  else if String.eqb name "generate_subtopic_report_prompt" then
    Some (SubtopicGenerator (generate_subtopic_report_prompt prompt_family))
  else if String.eqb name "generate_deep_research_prompt" then
    Some (ReportGenerator (generate_deep_research_prompt prompt_family))
  else None.

(** [getattr(prompt_family, name)], which raises when the attribute is
    missing or when the name is not a text. *)
Definition getattr (prompt_family : family) (name : option string) : M method :=
  match name with
  | None => raise (TypeError "attribute name must be string, not 'NoneType'")
  | Some name =>
      match getattr_or_None prompt_family name with
      | Some m => ret m
      | None => raise (AttributeError name)
      end
  end.

Definition report_type_mapping : dict string := [
  (ReportType_ResearchReport_value, "generate_report_prompt");
  (ReportType_ResourceReport_value, "generate_resource_report_prompt");
  (ReportType_OutlineReport_value, "generate_outline_report_prompt");
  (ReportType_CustomReport_value, "generate_custom_report_prompt");
  (ReportType_SubtopicReport_value, "generate_subtopic_report_prompt");
  (ReportType_DeepResearch_value, "generate_deep_research_prompt")
].

Definition get_prompt_by_report_type
    (report_type : string) (prompt_family : family) : M method :=
  let prompt_by_type :=
    getattr_or_None prompt_family
      (match dict_get report_type_mapping report_type with
       | Some name => name
       | None => EmptyString
       end) in
  let default_report_type := ReportType_ResearchReport_value in
  match prompt_by_type with
  | Some prompt_by_type => ret prompt_by_type
  | None =>
      warn (UserWarning
        f[ "Invalid report type: "; Field report_type; "."; nl;
           "Please use one of the following: "; Field (join ", " (dict_keys report_type_mapping)); nl;
           "Using default report type: "; Field default_report_type; " prompt." ]) ;;
      getattr prompt_family (dict_get report_type_mapping default_report_type)
  end.

Section Families.

(** The configuration object, which this module only stores. *)
Variable Config : Type.
(** [PromptFamilyEnum.Default.value], which the specification does not
    spell out. *)
Variable PromptFamilyEnum_Default_value : string.

(** The classes that the family table can hold. *)
Inductive family_class : Type :=
| PromptFamily_class.

Record PromptFamily : Type := mkPromptFamily {
  class_of : family_class;
  cfg : Config
}.

(** Calling the class with the given positional arguments:
    [__init__(self, config)] takes exactly one. *)
Definition PromptFamily_call (args : list Config) : M PromptFamily :=
  match args with
  | [config] => ret (mkPromptFamily PromptFamily_class config)
  | [] => raise (TypeError
      "PromptFamily.__init__() missing 1 required positional argument: 'config'")
  | _ :: _ :: _ => raise (TypeError
      "PromptFamily.__init__() takes 2 positional arguments but more were given")
  end.

Definition call_class (c : family_class) (args : list Config) : M PromptFamily :=
  match c with
  | PromptFamily_class => PromptFamily_call args
  end.

Definition prompt_family_mapping : dict family_class := [
  (PromptFamilyEnum_Default_value, PromptFamily_class)
].

(** The argument is an enum member or a text. *)
Definition get_prompt_family
    (prompt_family_name : PromptFamilyEnum + string) (config : Config)
    : M PromptFamily :=
  let prompt_family_name :=
    match prompt_family_name with
    | inl member => PromptFamilyEnum_value member
    | inr name => name
    end in
  match dict_get prompt_family_mapping prompt_family_name with
  | Some prompt_family => call_class prompt_family [config]
  | None =>
      warn (UserWarning
        f[ "Invalid prompt family: "; Field prompt_family_name; "."; nl;
           "Please use one of the following: "; Field (join ", " (dict_keys prompt_family_mapping)); nl;
           "Using default prompt family: "; Field PromptFamilyEnum_Default_value; " prompt." ]) ;;
      PromptFamily_call []
  end.

End Families.

(** The table key that a name, enum member or text, stands for. *)
Definition family_key (name : PromptFamilyEnum + string) : string :=
  match name with
  | inl member => PromptFamilyEnum_value member
  | inr text => text
  end.

(** ** Texts and sample values that the properties name *)

(** The directive that asks for hyperlinked URL references. *)
Definition url_hyperlink_directive : string :=
  "Every url should be hyperlinked: [url website](url)".

(** The directive that asks for source URLs as references, each once. *)
Definition url_references_directive : string :=
  "You MUST write all used source urls at the end of the report as references, and make sure to not add duplicated sources, but only one reference for each.".

(** The directive that asks for source document names as references, each
    once. *)
Definition document_references_directive : string :=
  "You MUST write all used source document names at the end of the report as references, and make sure to not add duplicated sources, but only one reference for each.".

(** The text of an optional tone. *)
Definition tone_text (tone : option Tone) : string :=
  match tone with
  | Some tone => Tone_value tone
  | None => EmptyString
  end.

Definition sample_clock : Clock :=
  mkClock (mkdate 2026 11 4) (mkdatetime (mkdate 2026 11 4) 10 30 0 0).

Definition evening_clock : Clock :=
  mkClock (mkdate 2026 11 4) (mkdatetime (mkdate 2026 11 4) 23 59 59 999999).

(** ** The document listing, as the specification words it *)

(** A document rendered as three lines: source, title, content. *)
Definition render_document (d : Document) : string :=
  "Source: " ++ str (dict_get (metadata d) "source") ++ nl
  ++ "Title: " ++ str (dict_get (metadata d) "title") ++ nl
  ++ "Content: " ++ page_content d ++ nl.

(** The first [min(top_n, len(docs))] documents, or all of them when
    [top_n] is [None], rendered in order and joined by line breaks. *)
Definition pretty_print_docs_spec (docs : list Document) (top_n : option Z) : string :=
  join nl
    (map render_document
       match top_n with
       | None => docs
       | Some n => firstn (Z.to_nat (Z.min n (Z.of_nat (List.length docs)))) docs
       end).

(** ** Every generator call *)

Section Calls.

Variable Dict : Type.
Variable json_dumps_indent2 : list Dict -> string.
Variable repr_list_dict : list Dict -> string.
Variable repr_list_str : list string -> string.
Variable ReportType_DetailedReport_value : string.

(** A method of [PromptFamily] together with its arguments. *)
Inductive call : Type :=
| Call_generate_mcp_tool_selection_prompt
    (query : string) (tools_info : list Dict) (max_tools : Z)
| Call_generate_mcp_research_prompt (query : string) (selected_tools : list Tool)
| Call_generate_search_queries_prompt
    (question parent_query report_type : string) (max_iterations : Z)
    (context : list Dict)
| Call_generate_report_prompt
    (question context report_source report_format : string)
    (total_words : Z) (tone : option Tone) (language : string)
| Call_curate_sources (query sources : string) (max_results : Z)
| Call_generate_resource_report_prompt
    (question context report_source report_format : string)
    (tone : option Tone) (total_words : Z) (language : string)
| Call_generate_custom_report_prompt
    (query_prompt context report_source report_format : string)
    (tone : option Tone) (total_words : Z) (language : string)
| Call_generate_outline_report_prompt
    (question context report_source report_format : string)
    (tone : option Tone) (total_words : Z) (language : string)
| Call_generate_deep_research_prompt
    (question context report_source report_format : string)
    (tone : option Tone) (total_words : Z) (language : string)
| Call_auto_agent_instructions
| Call_generate_summary_prompt (query data : string)
| Call_pretty_print_docs (docs : list Document) (top_n : option Z)
| Call_join_local_web_documents (docs_context web_context : string)
| Call_generate_subtopics_prompt
| Call_generate_subtopic_report_prompt
    (current_subtopic existing_headers relevant_written_contents : string)
    (main_topic context report_format : string)
    (max_subsections total_words : Z) (tone : Tone) (language : string)
| Call_generate_draft_titles_prompt
    (current_subtopic main_topic context : string) (max_subsections : Z)
| Call_generate_report_introduction
    (question research_summary language report_format : string)
| Call_generate_report_conclusion
    (query report_content language report_format : string).

(** The text a call returns under a clock observation. *)
Definition run (c : call) (clk : Clock) : string :=
  match c with
  | Call_generate_mcp_tool_selection_prompt query tools_info max_tools =>
      PromptFamily.generate_mcp_tool_selection_prompt
        Dict json_dumps_indent2 query tools_info max_tools
  | Call_generate_mcp_research_prompt query selected_tools =>
      PromptFamily.generate_mcp_research_prompt repr_list_str query selected_tools
  | Call_generate_search_queries_prompt
      question parent_query report_type max_iterations context =>
      PromptFamily.generate_search_queries_prompt
        Dict repr_list_dict ReportType_DetailedReport_value
        question parent_query report_type max_iterations context clk
  | Call_generate_report_prompt
      question context report_source report_format total_words tone language =>
      PromptFamily.generate_report_prompt
        question context report_source report_format total_words tone language clk
  | Call_curate_sources query sources max_results =>
      PromptFamily.curate_sources query sources max_results
  | Call_generate_resource_report_prompt
      question context report_source report_format tone total_words language =>
      PromptFamily.generate_resource_report_prompt
        question context report_source report_format tone total_words language
  | Call_generate_custom_report_prompt
      query_prompt context report_source report_format tone total_words language =>
      PromptFamily.generate_custom_report_prompt
        query_prompt context report_source report_format tone total_words language
  | Call_generate_outline_report_prompt
      question context report_source report_format tone total_words language =>
      PromptFamily.generate_outline_report_prompt
        question context report_source report_format tone total_words language
  | Call_generate_deep_research_prompt
      question context report_source report_format tone total_words language =>
      PromptFamily.generate_deep_research_prompt
        question context report_source report_format tone total_words language clk
  | Call_auto_agent_instructions => PromptFamily.auto_agent_instructions
  | Call_generate_summary_prompt query data =>
      PromptFamily.generate_summary_prompt query data
  | Call_pretty_print_docs docs top_n => PromptFamily.pretty_print_docs docs top_n
  | Call_join_local_web_documents docs_context web_context =>
      PromptFamily.join_local_web_documents docs_context web_context
  | Call_generate_subtopics_prompt => PromptFamily.generate_subtopics_prompt
  | Call_generate_subtopic_report_prompt
      current_subtopic existing_headers relevant_written_contents
      main_topic context report_format max_subsections total_words tone language =>
      PromptFamily.generate_subtopic_report_prompt
        current_subtopic existing_headers relevant_written_contents
        main_topic context report_format max_subsections total_words tone
        language clk
  | Call_generate_draft_titles_prompt current_subtopic main_topic context max_subsections =>
      PromptFamily.generate_draft_titles_prompt
        current_subtopic main_topic context max_subsections
  | Call_generate_report_introduction question research_summary language report_format =>
      PromptFamily.generate_report_introduction
        question research_summary language report_format clk
  | Call_generate_report_conclusion query report_content language report_format =>
      PromptFamily.generate_report_conclusion
        query report_content language report_format
  end.

End Calls.

(** ** Further texts that the properties name *)

(** The name a selected tool is listed under. *)
Definition display_name (tool : Tool) : string :=
  match tool with
  | ToolWithName name => name
  | ToolOther text => text
  end.

(** The opening words of the tone directive of the report generators. *)
Definition tone_directive_opening : string := "Write the report in a".

(** What [join_local_web_documents] puts between the two contexts. *)
Definition web_context_separator : string :=
  nl ++ nl ++ "Context from web sources: ".

(** ** Calls with a tone of any kind

    Python checks no argument type. Of the arguments of the report
    generators only [tone] is looked into: [tone.value] is an attribute
    access, which raises on an object without that attribute. *)

(** What a caller can hand over as [tone]: a member of [Tone], [None], or
    another object, of which only the truth value and the type name
    matter; [PROMPT_GENERATOR] declares a text. *)
Inductive tone_argument : Type :=
| ToneMember (member : Tone)
| ToneNone
| ToneOther (truth : bool) (type_name : string).

(** The arguments that the declared default and the members of the
    enumeration give. *)
Definition declared (tone : option Tone) : tone_argument :=
  match tone with
  | Some member => ToneMember member
  | None => ToneNone
  end.

(** [bool(tone)]. *)
Definition truth_value (tone : tone_argument) : bool :=
  match tone with
  | ToneMember _ => true
  | ToneNone => false
  | ToneOther truth _ => truth
  end.

(** What [tone.value] reads: the member, or no attribute. *)
Definition dot_value (tone : tone_argument) : exn + Tone :=
  match tone with
  | ToneMember member => inr member
  | ToneNone =>
      inl (AttributeError "'NoneType' object has no attribute 'value'")
  | ToneOther _ type_name =>
      inl (AttributeError ("'" ++ type_name ++ "' object has no attribute 'value'"))
  end.

(** The generators of the dispatch table, called with a tone of any
    kind. *)
Module Untyped.

(** [... {tone.value} ... if tone else ...]: the attribute is read only
    when the tone is true. *)
Definition generate_report_prompt
    (question context report_source report_format : string)
    (total_words : Z) (tone : tone_argument) (language : string)
    (clk : Clock) : exn + string :=
  if truth_value tone then
    match dot_value tone with
    | inr member =>
        inr (PromptFamily.generate_report_prompt
               question context report_source report_format total_words
               (Some member) language clk)
    | inl e => inl e
    end
  else
    inr (PromptFamily.generate_report_prompt
           question context report_source report_format total_words
           None language clk).

Definition generate_deep_research_prompt
    (question context report_source report_format : string)
    (tone : tone_argument) (total_words : Z) (language : string)
    (clk : Clock) : exn + string :=
  if truth_value tone then
    match dot_value tone with
    | inr member =>
        inr (PromptFamily.generate_deep_research_prompt
               question context report_source report_format (Some member)
               total_words language clk)
    | inl e => inl e
    end
  else
    inr (PromptFamily.generate_deep_research_prompt
           question context report_source report_format None
           total_words language clk).

(** The subtopic template reads [tone.value] whatever the tone. *)
Definition generate_subtopic_report_prompt
    (current_subtopic existing_headers relevant_written_contents : string)
    (main_topic context report_format : string)
    (max_subsections total_words : Z) (tone : tone_argument)
    (language : string) (clk : Clock) : exn + string :=
  match dot_value tone with
  | inr member =>
      inr (PromptFamily.generate_subtopic_report_prompt
             current_subtopic existing_headers relevant_written_contents
             main_topic context report_format max_subsections total_words
             member language clk)
  | inl e => inl e
  end.

(** The resource, custom and outline generators take a tone and never
    read it. *)
Definition generate_resource_report_prompt
    (question context report_source report_format : string)
    (tone : tone_argument) (total_words : Z) (language : string)
    : exn + string :=
  inr (PromptFamily.generate_resource_report_prompt
         question context report_source report_format None total_words
         language).

Definition generate_custom_report_prompt
    (query_prompt context report_source report_format : string)
    (tone : tone_argument) (total_words : Z) (language : string)
    : exn + string :=
  inr (PromptFamily.generate_custom_report_prompt
         query_prompt context report_source report_format None total_words
         language).

Definition generate_outline_report_prompt
    (question context report_source report_format : string)
    (tone : tone_argument) (total_words : Z) (language : string)
    : exn + string :=
  inr (PromptFamily.generate_outline_report_prompt
         question context report_source report_format None total_words
         language).

End Untyped.

(** ** Reading a text line by line *)

(** Where a reader stands in a text read from left to right: at the start
    of a line, after a single [#] that starts a line, further inside a
    line, or past a line that is a top-level heading. *)
Inductive line_state : Type :=
| LineStart
| AfterHash
| InLine
| HeadingFound.

Definition line_step (q : line_state) (c : ascii) : line_state :=
  match q with
  | HeadingFound => HeadingFound
  | LineStart =>
      if Ascii.eqb c (ascii_of_nat 10) then LineStart
      else if Ascii.eqb c (ascii_of_nat 35) then AfterHash
      else InLine
  | AfterHash =>
      if Ascii.eqb c (ascii_of_nat 10) then LineStart
      else if Ascii.eqb c (ascii_of_nat 35) then InLine
      else HeadingFound
  | InLine =>
      if Ascii.eqb c (ascii_of_nat 10) then LineStart else InLine
  end.

Fixpoint scan (q : line_state) (s : string) : line_state :=
  match s with
  | EmptyString => q
  | String c s' => scan (line_step q c) s'
  end.

Definition found (q : line_state) : bool :=
  match q with
  | HeadingFound => true
  | _ => false
  end.

(** The text [x], set inside a line, after a character that is not a line
    break and before one that is neither a line break nor [#], brings a
    top-level heading line: a line of [x] after its first is one, or the
    last line of [x] is a single [#]. *)
Definition heading_within_line (x : string) : bool :=
  has_top_level_heading ("-" ++ x ++ "-").

(** The text [x], set at the end of a line that it does not start, brings
    a top-level heading line: a line of [x] after its first is one. *)
Definition heading_before_line_break (x : string) : bool :=
  has_top_level_heading ("-" ++ x ++ nl).

(** A field of a template together with whether a line break follows
    it. *)
Definition brings (field : bool * string) : bool :=
  if fst field then heading_before_line_break (snd field)
  else heading_within_line (snd field).

(** Reading a template whose fields are unknown texts. A literal is read
    in full. A field must stand inside a line and be followed by a
    literal that starts with a line break or with a character other than
    [#]; it is listed with whether a line break follows it. The result is
    [None] for a template of another shape and for one whose literals
    hold a top-level heading line themselves. *)
Fixpoint walk (q : line_state) (ps : list fpart) : option (list (bool * string)) :=
  match ps with
  | [] => Some []
  | Const s :: r => if found (scan q s) then None else walk (scan q s) r
  | Field x :: Const (String d s) :: r =>
      match q with
      | InLine =>
          if Ascii.eqb d (ascii_of_nat 35) then None
          else if found (scan (line_step InLine d) s) then None
          else option_map (cons (Ascii.eqb d (ascii_of_nat 10), x))
                 (walk (scan (line_step InLine d) s) r)
      | _ => None
      end
  | Field _ :: _ => None
  end.

(** ** Occurrences of a text in an f-string *)

Lemma append_nil_r s : s ++ EmptyString = s.
Proof. induction s; simpl; congruence. Qed.

Lemma append_assoc a b c : (a ++ b) ++ c = a ++ b ++ c.
Proof. induction a; simpl; congruence. Qed.

Lemma append_eq_append a : forall b c d, a ++ b = c ++ d ->
  (exists m, c = a ++ m /\ b = m ++ d) \/ (exists m, a = c ++ m /\ d = m ++ b).
Proof.
  induction a as [|x a IH]; intros b c d H; simpl in *.
  - left. exists c. auto.
  - destruct c as [|y c]; simpl in *.
    + right. exists (String x a). auto.
    + injection H as -> H. destruct (IH _ _ _ H) as [[m [-> ->]]|[m [-> ->]]].
      * left; exists m; auto.
      * right; exists m; auto.
Qed.

Lemma starts_with_iff p : forall s, starts_with p s = true <-> exists r, s = p ++ r.
Proof.
  induction p as [|a p IH]; intros s; simpl.
  - split; eauto.
  - destruct s as [|b s].
    + split; [discriminate | intros [r H]; discriminate].
    + rewrite andb_true_iff, Ascii.eqb_eq, IH. split.
      * intros [-> [r ->]]. eauto.
      * intros [r H]. injection H as -> ->. eauto.
Qed.

Lemma contains_iff n : forall s, contains n s = true <-> Occ n s.
Proof.
  induction s as [|c s IH].
  - simpl. rewrite orb_false_r, starts_with_iff. split.
    + intros [r H]. exists EmptyString, r. exact H.
    + intros [l [r H]]. destruct l; simpl in H; [eauto | discriminate].
  - simpl. rewrite orb_true_iff, starts_with_iff, IH. split.
    + intros [[r H] | [l [r H]]].
      * exists EmptyString, r. exact H.
      * exists (String c l), r. simpl. congruence.
    + intros [l [r H]]. destruct l as [|x l]; simpl in H.
      * left. eauto.
      * right. injection H as -> ->. exists l, r. reflexivity.
Qed.

Lemma contains_false_iff n s : contains n s = false <-> ~ Occ n s.
Proof. rewrite <- contains_iff. destruct (contains n s); split; congruence. Qed.


Lemma Occ_app n a b : Occ n (a ++ b) ->
  Occ n a \/ Occ n b \/
  exists n1 n2, n = n1 ++ n2 /\ n1 <> EmptyString /\ n2 <> EmptyString
                /\ (exists l, a = l ++ n1) /\ (exists r, b = n2 ++ r).
Proof.
  intros [l [r H]].
  destruct (append_eq_append _ _ _ _ H) as [[m [-> ->]]|[m [-> H2]]].
  - right; left. exists m, r. reflexivity.
  - destruct (append_eq_append _ _ _ _ H2) as [[k [-> ->]]|[k [-> ->]]].
    + left. exists l, k. reflexivity.
    + destruct m as [|x m].
      * right; left. exists EmptyString, r. reflexivity.
      * destruct k as [|y k].
        -- left. exists l, EmptyString. rewrite !append_nil_r. reflexivity.
        -- right; right. exists (String x m), (String y k).
           repeat split; try discriminate; eauto.
Qed.

Lemma any_tail_intro P l : forall m, m <> EmptyString -> P m = true ->
  any_tail P (l ++ m) = true.
Proof.
  induction l as [|c l IH]; intros m Hm HP; simpl.
  - destruct m; [congruence|]. simpl. rewrite HP. reflexivity.
  - rewrite (IH m Hm HP). apply orb_true_r.
Qed.

Lemma starts_with_app p r : starts_with p (p ++ r) = true.
Proof. apply starts_with_iff. eauto. Qed.

Lemma hole_step n t x : Good n t -> ~ Occ n x -> ~ Occ n (t ++ x).
Proof.
  intros [Ht Hp] Hx H. apply Occ_app in H.
  destruct H as [H|[H|[n1 [n2 [-> [H1 [_ [Hl _]]]]]]]]; auto.
  apply Hp. exists n1. repeat split; eauto.
Qed.

Lemma lit_in_step n t s : ~ Occ n t -> lit_in n s = true -> ~ Occ n (t ++ s).
Proof.
  unfold lit_in. rewrite andb_true_iff, !negb_true_iff.
  intros Ht [Ha Hc] H. apply Occ_app in H.
  destruct H as [H|[H|[n1 [n2 [-> [_ [H2 [_ [r ->]]]]]]]]]; auto.
  - apply contains_iff in H. congruence.
  - rewrite (any_tail_intro _ n1 n2 H2) in Hc; [discriminate|].
    apply starts_with_app.
Qed.

Lemma lit_out_step n t s : lit_out n s = true -> ~ Pending n (t ++ s).
Proof.
  unfold lit_out. rewrite andb_true_iff, !negb_true_iff.
  intros [Hb Hd] [m [Hm [[l Hl] [r ->]]]].
  destruct (append_eq_append _ _ _ _ Hl) as [[k [-> ->]]|[k [-> ->]]].
  - rewrite (any_tail_intro _ k m Hm) in Hd; [discriminate|].
    apply starts_with_app.
  - assert (Occ s ((k ++ s) ++ r)) as H.
    { exists k, r. apply append_assoc. }
    apply contains_iff in H. congruence.
Qed.

Lemma fstring_merge ps : fstring (merge ps) = fstring ps.
Proof.
  induction ps as [|[a|x] r IH]; simpl; [reflexivity| |congruence].
  destruct (merge r) as [|[b|y] r']; simpl in *; rewrite <- IH;
    rewrite ?append_assoc; reflexivity.
Qed.

Lemma fields_merge ps : fields (merge ps) = fields ps.
Proof.
  induction ps as [|[a|x] r IH]; simpl; [reflexivity| |congruence].
  destruct (merge r) as [|[b|y] r']; simpl in *; congruence.
Qed.

Lemma safeb_sound n : forall ps t good,
  (if good : bool then Good n t else ~ Occ n t) ->
  safeb n good ps = true ->
  Forall (fun x => contains n x = false) (fields ps) ->
  ~ Occ n (t ++ fstring ps).
Proof.
  induction ps as [|[s|x] r IH]; intros t good Ht Hs Hf; simpl in *.
  - rewrite append_nil_r. destruct good; [apply Ht | exact Ht].
  - apply andb_true_iff in Hs. destruct Hs as [Hl Hs].
    assert (~ Occ n (t ++ s)) as Hts.
    { apply lit_in_step; auto. destruct good; [apply Ht | exact Ht]. }
    rewrite <- append_assoc. apply (IH _ (lit_out n s)); auto.
    destruct (lit_out n s) eqn:Ho; [|exact Hts].
    split; [exact Hts | apply lit_out_step, Ho].
  - apply andb_true_iff in Hs. destruct Hs as [-> Hs].
    inversion Hf as [|? ? Hx Hr]; subst.
    rewrite <- append_assoc. apply (IH _ false); auto.
    apply hole_step; auto. apply contains_false_iff. exact Hx.
Qed.

Theorem fstring_avoids n ps :
  n <> EmptyString ->
  safeb n true (merge ps) = true ->
  Forall (fun x => contains n x = false) (fields ps) ->
  contains n (fstring ps) = false.
Proof.
  intros Hn Hs Hf. apply contains_false_iff.
  rewrite <- fstring_merge.
  change (~ Occ n (EmptyString ++ fstring (merge ps))).
  apply (safeb_sound n _ _ true); auto.
  - split.
    + intros [l [r H]]. destruct l; [|discriminate]. destruct n; [congruence|discriminate].
    + intros [m [Hm [[l Hl] _]]]. destruct l; [|discriminate]. simpl in Hl. congruence.
  - rewrite fields_merge. exact Hf.
Qed.

(** ** Finding a text in an f-string *)

Lemma contains_intro n l r : contains n (l ++ n ++ r) = true.
Proof. apply contains_iff. exists l, r. reflexivity. Qed.

Lemma contains_refl n : contains n n = true.
Proof.
  apply contains_iff. exists EmptyString, EmptyString.
  simpl. rewrite append_nil_r. reflexivity.
Qed.

Lemma contains_app_r n a b : contains n b = true -> contains n (a ++ b) = true.
Proof.
  rewrite !contains_iff. intros [l [r ->]].
  exists (a ++ l), r. rewrite append_assoc. reflexivity.
Qed.

Lemma contains_app_l n a b : contains n a = true -> contains n (a ++ b) = true.
Proof.
  rewrite !contains_iff. intros [l [r ->]].
  exists l, (r ++ b). rewrite !append_assoc. reflexivity.
Qed.

Lemma contains_trans a b c :
  contains a b = true -> contains b c = true -> contains a c = true.
Proof.
  rewrite !contains_iff. intros [l [r ->]] [l' [r' ->]].
  exists (l' ++ l), (r ++ r'). rewrite !append_assoc. reflexivity.
Qed.

Lemma contains_fstring_skip n p ps :
  contains n (fstring ps) = true -> contains n (fstring (p :: ps)) = true.
Proof. apply contains_app_r. Qed.

Lemma contains_fstring_here n p ps :
  contains n (part_text p) = true -> contains n (fstring (p :: ps)) = true.
Proof. apply contains_app_l. Qed.

Lemma ends_with_iff p : forall s, ends_with p s = true <-> exists l, s = l ++ p.
Proof.
  induction s as [|c s IH]; simpl.
  - rewrite orb_false_r, String.eqb_eq. split.
    + intros ->. exists EmptyString. reflexivity.
    + intros [l H]. destruct l; [exact (eq_sym H) | discriminate].
  - rewrite orb_true_iff, String.eqb_eq, IH. split.
    + intros [-> | [l ->]]; [exists EmptyString | exists (String c l)]; reflexivity.
    + intros [l H]. destruct l as [|x l]; simpl in H.
      * left. congruence.
      * right. injection H as -> ->. eauto.
Qed.

(** A text made of the end of one literal, a whole field and the beginning
    of the next literal occurs in the f-string. *)
Lemma contains_fstring_span a x b A B ps :
  ends_with a A = true -> starts_with b B = true ->
  contains (a ++ x ++ b) (fstring (Const A :: Field x :: Const B :: ps)) = true.
Proof.
  rewrite ends_with_iff, starts_with_iff. intros [l ->] [r ->]. simpl.
  apply contains_iff. exists l, (r ++ fstring ps).
  rewrite !append_assoc. reflexivity.
Qed.

(** ** Texts that lack a character *)

Lemma has_char_app c a b : has_char c (a ++ b) = has_char c a || has_char c b.
Proof.
  induction a as [|x a IH]; simpl; [reflexivity|].
  rewrite IH. apply orb_assoc.
Qed.

Lemma has_char_contains c n s :
  has_char c s = false -> contains (String c n) s = false.
Proof.
  induction s as [|b s IH]; intros H.
  - reflexivity.
  - simpl in H. apply orb_false_iff in H. destruct H as [Hb Hs].
    change (contains (String c n) (String b s))
      with (starts_with (String c n) (String b s) || contains (String c n) s).
    rewrite (IH Hs), orb_false_r. simpl. rewrite Hb. reflexivity.
Qed.

Lemma digit_or_minus_false c a :
  digit_or_minus c = false -> has_char a "0123456789-" = true ->
  Ascii.eqb c a = false.
Proof.
  intros H Ha. destruct (Ascii.eqb c a) eqn:E; [|reflexivity].
  apply Ascii.eqb_eq in E. subst a. unfold digit_or_minus in H. congruence.
Qed.

Ltac not_numeric H :=
  repeat rewrite (digit_or_minus_false _ _ H) by reflexivity.

Lemma has_char_uint c d :
  digit_or_minus c = false -> has_char c (NilEmpty.string_of_uint d) = false.
Proof.
  intros H. induction d; simpl; rewrite ?IHd; not_numeric H; reflexivity.
Qed.

Lemma has_char_str_int c (z : Z) :
  digit_or_minus c = false -> has_char c (str z) = false.
Proof.
  intros H. unfold str, Str_int, NilZero.string_of_int.
  assert (forall d, has_char c (NilZero.string_of_uint d) = false) as Hu.
  { intros d. pose proof (has_char_uint c d H) as Hd.
    destruct d; try exact Hd. simpl. not_numeric H. reflexivity. }
  destruct (Z.to_int z) as [d|d]; [apply Hu|].
  simpl. rewrite Hu. not_numeric H. reflexivity.
Qed.

Lemma has_char_zfill c w s :
  digit_or_minus c = false -> has_char c s = false -> has_char c (zfill w s) = false.
Proof.
  intros H Hs. unfold zfill. rewrite has_char_app, Hs, orb_false_r.
  induction (w - String.length s)%nat as [|k IH]; simpl; [reflexivity|].
  rewrite IH. not_numeric H. reflexivity.
Qed.

Lemma has_char_str_date c (d : date) :
  digit_or_minus c = false -> has_char c (str d) = false.
Proof.
  intros H. unfold str at 1, Str_date.
  rewrite !has_char_app, !has_char_zfill by auto using has_char_str_int.
  simpl. not_numeric H. reflexivity.
Qed.

Lemma has_char_month_name c m :
  forallb (fun s => negb (has_char c s)) month_names = true ->
  has_char c (month_name m) = false.
Proof.
  intros H. unfold month_name.
  rewrite forallb_forall in H.
  destruct (nth_in_or_default (Z.to_nat (m - 1)) month_names EmptyString) as [Hin | ->].
  - apply negb_true_iff, H, Hin.
  - reflexivity.
Qed.

Lemma has_char_strftime c dt :
  digit_or_minus c = false ->
  has_char c ", " = false ->
  forallb (fun s => negb (has_char c s)) month_names = true ->
  has_char c (strftime_B_d_Y dt) = false.
Proof.
  intros H Hp Hm. unfold strftime_B_d_Y.
  rewrite !has_char_app, has_char_month_name, has_char_zfill, has_char_str_int
    by auto using has_char_str_int.
  simpl in Hp |- *. apply orb_false_iff in Hp. destruct Hp as [Hc Hs].
  rewrite Hc, Hs. reflexivity.
Qed.

(** ** Tactics for templates *)

(** Find a replacement field equal to the text looked for. *)
Ltac find_field :=
  lazymatch goal with
  | |- contains ?x (fstring (Field ?x :: _)) = true =>
      apply contains_fstring_here; apply contains_refl
  | |- contains _ (fstring (_ :: _)) = true =>
      apply contains_fstring_skip; find_field
  end.

(** Find a field together with the end of the literal before it and the
    beginning of the literal after it. *)
Ltac find_span :=
  lazymatch goal with
  | |- contains (_ ++ ?x ++ _) (fstring (Const _ :: Field ?x :: Const _ :: _)) = true =>
      first [ apply contains_fstring_span; vm_compute; reflexivity
            | apply contains_fstring_skip; find_span ]
  | |- contains _ (fstring (_ :: _)) = true =>
      apply contains_fstring_skip; find_span
  end.

(** ** Source curation *)

(** C6. For every query, every sources text and every integer
    [max_results], the text returned by [curate_sources] holds the
    selection instruction whose cap is the decimal rendering of
    [max_results], delimited on both sides: up to N, followed by a comma. *)
Theorem curate_sources_states_max_results (query sources : string) (max_results : Z) :
  contains
    ("Include as many relevant sources as possible, up to "
       ++ str max_results ++ ", focusing on broad coverage and diversity.")
    (PromptFamily.curate_sources query sources max_results) = true.
Proof.
  unfold PromptFamily.curate_sources. find_span.
Qed.

Example curate_sources_five :
  contains "up to 5, focusing"
    (PromptFamily.curate_sources "q" "[s1, s2, s3, s4, s5, s6, s7]" 5) = true.
Proof. vm_compute. reflexivity. Qed.

(** ** Tool selection *)

Section ToolSelection.

Variable Dict : Type.
Variable json_dumps_indent2 : list Dict -> string.

(** C7. For every query, every list of tool metadata and every integer
    [max_tools], the tool-selection prompt holds the phrase EXACTLY
    followed by the decimal rendering of [max_tools] (and then the word
    tools), and it holds the JSON serialization of the whole list. *)
Theorem tool_selection_exact_count_and_catalog
    (query : string) (tools_info : list Dict) (max_tools : Z) :
  let prompt :=
    PromptFamily.generate_mcp_tool_selection_prompt
      Dict json_dumps_indent2 query tools_info max_tools in
  contains ("EXACTLY " ++ str max_tools) prompt = true
  /\ contains ("select EXACTLY " ++ str max_tools ++ " tools") prompt = true
  /\ contains (json_dumps_indent2 tools_info) prompt = true.
Proof.
  unfold PromptFamily.generate_mcp_tool_selection_prompt. cbv zeta.
  assert (contains ("select EXACTLY " ++ str max_tools ++ " tools")
            (PromptFamily.generate_mcp_tool_selection_prompt
               Dict json_dumps_indent2 query tools_info max_tools) = true) as H.
  { unfold PromptFamily.generate_mcp_tool_selection_prompt. find_span. }
  unfold PromptFamily.generate_mcp_tool_selection_prompt in H.
  split; [|split].
  - refine (contains_trans _ _ _ _ H).
    exact (contains_intro ("EXACTLY " ++ str max_tools) "select " " tools").
  - exact H.
  - find_field.
Qed.

End ToolSelection.

(** ** Texts that the replacement fields must not hold *)

Lemma forallb_free n xs :
  forallb (fun x => negb (contains n x)) xs = true ->
  Forall (fun x => contains n x = false) xs.
Proof.
  induction xs as [|x xs IH]; simpl; intros H; constructor.
  - apply andb_true_iff in H. destruct H as [H _].
    apply negb_true_iff in H. exact H.
  - apply IH. apply andb_true_iff in H. apply H.
Qed.

Ltac split_free H :=
  apply forallb_free in H;
  repeat match goal with
         | F : Forall _ (_ :: _) |- _ => inversion F; clear F; subst
         | F : Forall _ [] |- _ => clear F
         end.

Lemma free_str_int n c (z : Z) :
  digit_or_minus c = false -> contains (String c n) (str z) = false.
Proof. intros H. apply has_char_contains, has_char_str_int, H. Qed.

Lemma free_str_date n c (d : date) :
  digit_or_minus c = false -> contains (String c n) (str d) = false.
Proof. intros H. apply has_char_contains, has_char_str_date, H. Qed.

Lemma free_strftime n c dt :
  digit_or_minus c = false ->
  has_char c ", " = false ->
  forallb (fun s => negb (has_char c s)) month_names = true ->
  contains (String c n) (strftime_B_d_Y dt) = false.
Proof. intros. apply has_char_contains, has_char_strftime; assumption. Qed.

(** ** Reading heading lines from left to right *)

Lemma scan_found s : scan HeadingFound s = HeadingFound.
Proof. induction s as [|c s IH]; [reflexivity | exact IH]. Qed.

Lemma scan_app q a b : scan q (a ++ b) = scan (scan q a) b.
Proof.
  revert q. induction a as [|c a IH]; intros q; [reflexivity | apply IH].
Qed.

(** The reader agrees with the lines of the text: from the start of a
    line, after a [#] that starts one, and from inside a first line,
    which then cannot be a heading any more. *)
Lemma scan_reads_lines s :
  found (scan LineStart s) = existsb is_top_level_heading (lines s)
  /\ found (scan AfterHash s)
     = existsb is_top_level_heading (lines (String (ascii_of_nat 35) s))
  /\ found (scan InLine s) = existsb is_top_level_heading (tl (lines s)).
Proof.
  induction s as [|c s [IH1 [IH2 IH3]]]; [repeat split|].
  change (lines (String (ascii_of_nat 35) (String c s)))
    with (match lines (String c s) with
          | l :: ls => String (ascii_of_nat 35) l :: ls
          | [] => [String (ascii_of_nat 35) EmptyString]
          end).
  change (lines (String c s))
    with (if Ascii.eqb c (ascii_of_nat 10) then EmptyString :: lines s
          else match lines s with
               | l :: ls => String c l :: ls
               | [] => [String c EmptyString]
               end).
  change (scan LineStart (String c s)) with (scan (line_step LineStart c) s).
  change (scan AfterHash (String c s)) with (scan (line_step AfterHash c) s).
  change (scan InLine (String c s)) with (scan (line_step InLine c) s).
  unfold line_step.
  destruct (Ascii.eqb c (ascii_of_nat 10)) eqn:Hn.
  - rewrite IH1. repeat split.
  - destruct (Ascii.eqb c (ascii_of_nat 35)) eqn:Hh.
    + apply Ascii.eqb_eq in Hh. subst c. rewrite IH2, IH3.
      change (lines (String (ascii_of_nat 35) s))
        with (match lines s with
              | l :: ls => String (ascii_of_nat 35) l :: ls
              | [] => [String (ascii_of_nat 35) EmptyString]
              end).
      destruct (lines s) as [|l ls]; repeat split.
    + rewrite scan_found, IH3.
      destruct (lines s) as [|l ls]; simpl; rewrite ?Hh; repeat split;
        destruct l; reflexivity.
Qed.

Lemma heading_scan s : has_top_level_heading s = found (scan LineStart s).
Proof. symmetry. apply scan_reads_lines. Qed.

(** After a character other than [#], either a heading line has been
    passed or the reader stands where that character alone puts it. *)
Lemma step_settles q d :
  Ascii.eqb d (ascii_of_nat 35) = false ->
  line_step q d
  = if found (line_step q d) then HeadingFound else line_step InLine d.
Proof.
  intros Hh. destruct q; simpl; rewrite ?Hh;
    destruct (Ascii.eqb d (ascii_of_nat 10)); reflexivity.
Qed.

Lemma brings_spec d x :
  Ascii.eqb d (ascii_of_nat 35) = false ->
  found (line_step (scan InLine x) d) = brings (Ascii.eqb d (ascii_of_nat 10), x).
Proof.
  intros Hh. unfold brings, heading_before_line_break, heading_within_line.
  cbn [fst snd]. rewrite !heading_scan.
  change (scan LineStart ("-" ++ x ++ nl)) with (scan InLine (x ++ nl)).
  change (scan LineStart ("-" ++ x ++ "-")) with (scan InLine (x ++ "-")).
  rewrite !scan_app.
  destruct (Ascii.eqb d (ascii_of_nat 10)) eqn:Hn.
  - apply Ascii.eqb_eq in Hn. subst d. reflexivity.
  - destruct (scan InLine x); simpl; rewrite ?Hn, ?Hh; reflexivity.
Qed.

(** What [walk] lists decides whether the text of the template has a
    top-level heading line. *)
Lemma walk_sound ps :
  (forall q l, found q = false -> walk q ps = Some l ->
     found (scan q (fstring ps)) = existsb brings l)
  /\ (forall p q l, found q = false -> walk q (p :: ps) = Some l ->
       found (scan q (fstring (p :: ps))) = existsb brings l).
Proof.
  induction ps as [|p0 ps [IH1 IH2]].
  - split.
    + intros q l Hq H. injection H as <-. exact Hq.
    + intros [s|x] q l Hq H; [|discriminate H].
      change (walk q [Const s])
        with (if found (scan q s) then None else Some (@nil (bool * string))) in H.
      destruct (found (scan q s)) eqn:F; [discriminate H|].
      injection H as <-.
      change (fstring [Const s]) with (s ++ EmptyString).
      rewrite scan_app. exact F.
  - split; [exact (IH2 p0)|].
    intros [s|x] q l Hq H.
    + change (walk q (Const s :: p0 :: ps))
        with (if found (scan q s) then None else walk (scan q s) (p0 :: ps)) in H.
      destruct (found (scan q s)) eqn:F; [discriminate H|].
      change (fstring (Const s :: p0 :: ps)) with (s ++ fstring (p0 :: ps)).
      rewrite scan_app. exact (IH2 p0 (scan q s) l F H).
    + destruct p0 as [[|d s]|y]; try discriminate H.
      change (walk q (Field x :: Const (String d s) :: ps))
        with (match q with
              | InLine =>
                  if Ascii.eqb d (ascii_of_nat 35) then None
                  else if found (scan (line_step InLine d) s) then None
                  else option_map (cons (Ascii.eqb d (ascii_of_nat 10), x))
                         (walk (scan (line_step InLine d) s) ps)
              | _ => None
              end) in H.
      destruct q; try discriminate H.
      destruct (Ascii.eqb d (ascii_of_nat 35)) eqn:Hh; [discriminate H|].
      destruct (found (scan (line_step InLine d) s)) eqn:F; [discriminate H|].
      destruct (walk (scan (line_step InLine d) s) ps) as [l'|] eqn:W;
        [|discriminate H].
      injection H as <-.
      change (fstring (Field x :: Const (String d s) :: ps))
        with (x ++ String d (s ++ fstring ps)).
      rewrite scan_app.
      change (scan (scan InLine x) (String d (s ++ fstring ps)))
        with (scan (line_step (scan InLine x) d) (s ++ fstring ps)).
      change (existsb brings ((Ascii.eqb d (ascii_of_nat 10), x) :: l'))
        with (brings (Ascii.eqb d (ascii_of_nat 10), x) || existsb brings l').
      rewrite <- (brings_spec d x Hh).
      pose proof (step_settles (scan InLine x) d Hh) as Hs.
      destruct (found (line_step (scan InLine x) d)); rewrite Hs.
      * rewrite scan_found. reflexivity.
      * rewrite scan_app. exact (IH1 _ l' F W).
Qed.

(** A text without a line break holds no line of its own after the
    first. *)
Lemma scan_same_line s :
  has_char (ascii_of_nat 10) s = false -> scan InLine s = InLine.
Proof.
  induction s as [|c s IH]; [reflexivity|]. intros H.
  change (has_char (ascii_of_nat 10) (String c s))
    with (Ascii.eqb (ascii_of_nat 10) c || has_char (ascii_of_nat 10) s) in H.
  apply orb_false_iff in H. destruct H as [Hc Hs].
  rewrite Ascii.eqb_sym in Hc.
  change (scan InLine (String c s)) with (scan (line_step InLine c) s).
  unfold line_step. rewrite Hc. exact (IH Hs).
Qed.

Lemma heading_within_line_same_line s :
  has_char (ascii_of_nat 10) s = false -> heading_within_line s = false.
Proof.
  intros H. unfold heading_within_line. rewrite heading_scan.
  change (scan LineStart ("-" ++ s ++ "-")) with (scan InLine (s ++ "-")).
  rewrite scan_app, (scan_same_line s H). reflexivity.
Qed.

Lemma heading_within_line_int (z : Z) : heading_within_line (str z) = false.
Proof. apply heading_within_line_same_line, has_char_str_int. reflexivity. Qed.

Lemma heading_within_line_strftime dt :
  heading_within_line (strftime_B_d_Y dt) = false.
Proof.
  apply heading_within_line_same_line, has_char_strftime; reflexivity.
Qed.

Lemma line_step_upper q c : line_step q (upper_char c) = line_step q c.
Proof. destruct q; destruct c as [[] [] [] [] [] [] [] []]; reflexivity. Qed.

Lemma scan_upper s : forall q, scan q (upper s) = scan q s.
Proof.
  induction s as [|c s IH]; intros q; [reflexivity|].
  change (scan (line_step q (upper_char c)) (upper s)
          = scan (line_step q c) s).
  rewrite line_step_upper. apply IH.
Qed.

(** Upper-casing moves no line break and no [#]. *)
Lemma heading_within_line_upper s :
  heading_within_line (upper s) = heading_within_line s.
Proof.
  unfold heading_within_line. rewrite !heading_scan.
  change (scan LineStart ("-" ++ upper s ++ "-")) with (scan InLine (upper s ++ "-")).
  change (scan LineStart ("-" ++ s ++ "-")) with (scan InLine (s ++ "-")).
  rewrite !scan_app, scan_upper. reflexivity.
Qed.

(** ** The subtopic report *)

(** C5, counterexample. Text is interpolated as it comes: a context that
    holds a line starting with one [#] puts a top-level heading line into
    the subtopic prompt. *)
Lemma subtopic_report_heading_from_context :
  has_top_level_heading
    (PromptFamily.generate_subtopic_report_prompt
       "Lease terms" "[]" "[]" "Store acquisition"
       (nl ++ "# Injected title") "apa" 5 800 (mkTone "objective") "english"
       sample_clock) = true.
Proof. vm_compute. reflexivity. Qed.

(** C5, as amended. The text returned by the subtopic-report generator
    has a top-level heading line exactly when a text handed to it brings
    one. The template itself has none: its headings are indented [###]
    lines. The context, the subtopic, the main topic, the report format,
    the language and the tone value stand inside a line, before a
    character that is neither a line break nor [#]; such a text brings a
    top-level heading line when one of its lines after the first is one,
    or when its last line is a single [#]. The existing headers and the
    written contents stand at the end of a line; they bring one when one
    of their lines after the first is one. In particular a text that
    holds only [##] or [###] lines brings none. *)
Theorem subtopic_report_heading_lines
    (current_subtopic existing_headers relevant_written_contents : string)
    (main_topic context report_format : string)
    (max_subsections total_words : Z) (tone : Tone) (language : string)
    (clk : Clock) :
  has_top_level_heading
    (PromptFamily.generate_subtopic_report_prompt
       current_subtopic existing_headers relevant_written_contents
       main_topic context report_format max_subsections total_words tone
       language clk)
  = existsb heading_within_line
      [context; current_subtopic; main_topic; report_format; language;
       Tone_value tone]
    || existsb heading_before_line_break
         [existing_headers; relevant_written_contents].
Proof.
  pose proof (heading_within_line_int max_subsections) as Hsections.
  pose proof (heading_within_line_int total_words) as Hwords.
  pose proof (heading_within_line_strftime (datetime_now_utc clk)) as Hdate.
  pose proof (heading_within_line_upper report_format) as Hformat.
  unfold PromptFamily.generate_subtopic_report_prompt.
  rewrite heading_scan.
  remember (str max_subsections) as sections eqn:E1. clear E1.
  remember (str total_words) as words eqn:E2. clear E2.
  remember (strftime_B_d_Y (datetime_now_utc clk)) as today eqn:E3. clear E3.
  remember (upper report_format) as style eqn:E4. clear E4.
  remember (Tone_value tone) as manner eqn:E5. clear E5.
  lazymatch goal with
  | |- found (scan LineStart (fstring ?ps)) = _ =>
      assert (walk LineStart ps
              = Some [ (false, context); (false, current_subtopic);
                       (false, main_topic); (false, sections); (false, style);
                       (true, existing_headers);
                       (true, relevant_written_contents);
                       (false, today); (false, language); (false, style);
                       (false, words); (false, manner) ]) as W
        by (vm_compute; reflexivity);
      rewrite (proj1 (walk_sound ps) LineStart _ eq_refl W)
  end.
  cbv [existsb brings fst snd].
  rewrite Hsections, Hwords, Hdate, Hformat.
  destruct (heading_within_line context),
    (heading_within_line current_subtopic),
    (heading_within_line main_topic),
    (heading_within_line report_format),
    (heading_within_line language),
    (heading_within_line manner),
    (heading_before_line_break existing_headers),
    (heading_before_line_break relevant_written_contents);
    reflexivity.
Qed.

(** Lines that start with two or three [#] are no top-level heading
    lines: a context made of such lines leaves the subtopic prompt
    without one. *)
Example subtopic_report_with_smaller_headings :
  has_top_level_heading
    (PromptFamily.generate_subtopic_report_prompt
       "Lease terms" "['Tenant']" "['Rent roll']" "Store acquisition"
       (nl ++ "## Rent roll" ++ nl ++ "### Escalations") "apa" 5 800
       (mkTone "objective") "english" sample_clock) = false.
Proof. vm_compute. reflexivity. Qed.

(** ** The reference directive *)

(** Look for a closed text inside any part, literal or computed field. *)
Ltac find_part :=
  lazymatch goal with
  | |- contains _ (fstring (_ :: _)) = true =>
      first [ apply contains_fstring_here; vm_compute; reflexivity
            | apply contains_fstring_skip; find_part ]
  end.

Lemma url_directive_free_int (z : Z) :
  contains url_hyperlink_directive (str z) = false.
Proof. apply (free_str_int _ "E"%char). reflexivity. Qed.

Lemma url_directive_free_date (d : date) :
  contains url_hyperlink_directive (str d) = false.
Proof. apply (free_str_date _ "E"%char). reflexivity. Qed.

Lemma url_directive_free_strftime dt :
  contains url_hyperlink_directive (strftime_B_d_Y dt) = false.
Proof. apply (free_strftime _ "E"%char); reflexivity. Qed.

Lemma url_directive_free_tone_prompt tone :
  contains url_hyperlink_directive (tone_text tone) = false ->
  contains url_hyperlink_directive
    match tone with
    | Some tone => f[ "Write the report in a "; Field (Tone_value tone); " tone." ]
    | None => EmptyString
    end = false.
Proof.
  destruct tone as [t|]; simpl tone_text; intros H; [|reflexivity].
  apply fstring_avoids.
  - discriminate.
  - vm_compute. reflexivity.
  - cbv [fields]. repeat constructor. exact H.
Qed.

Ltac url_free_fields :=
  cbv [fields];
  repeat (apply Forall_cons; [|]); try apply Forall_nil;
  try assumption;
  first [ apply url_directive_free_int
        | apply url_directive_free_date
        | apply url_directive_free_strftime
        | apply url_directive_free_tone_prompt; assumption
        | vm_compute; reflexivity ].

(** C4, counterexample. The custom-report generator, asked for a web
    report, returns no reference directive at all; and the research-report
    generator, asked for a documents report, repeats the URL directive when
    the context it is given holds it. *)
Lemma reference_directive_counterexample :
  contains url_hyperlink_directive
    (PromptFamily.generate_custom_report_prompt
       "Summarise the lease" "Some context" "web" "apa" None 1000 "english")
  = false
  /\ contains url_hyperlink_directive
       (PromptFamily.generate_report_prompt
          "Summarise the lease" url_hyperlink_directive "documents" "apa"
          1000 None "english" sample_clock)
     = true.
Proof. split; vm_compute; reflexivity. Qed.

Lemma directive_free_int (directive : string) (z : Z) :
  In directive
    [url_hyperlink_directive; url_references_directive;
     document_references_directive] ->
  contains directive (str z) = false.
Proof.
  intros [<- | [<- | [<- | []]]].
  - apply (free_str_int _ "E"%char). reflexivity.
  - apply (free_str_int _ "Y"%char). reflexivity.
  - apply (free_str_int _ "Y"%char). reflexivity.
Qed.

(** C4, as amended. For the research-report and the deep-research
    generators: when [report_source] is the web value the returned text
    holds the URL-hyperlink directive and the directive to list source
    URLs once each; for any other [report_source] it holds the directive
    to list source document names once each, and it holds the
    URL-hyperlink directive only if a text supplied by the caller does.
    The resource-report generator holds the URL-hyperlink directive for
    the web value and the document-names directive otherwise. The custom
    and the outline generators add no reference directive, whatever
    [report_source] is: their texts hold none of the three directives
    unless the question or the context does. *)
Theorem reference_directive_by_report_source
    (question context report_source report_format : string)
    (total_words : Z) (tone : option Tone) (language : string) (clk : Clock) :
  let report :=
    PromptFamily.generate_report_prompt
      question context report_source report_format total_words tone language clk in
  let deep :=
    PromptFamily.generate_deep_research_prompt
      question context report_source report_format tone total_words language clk in
  let resource :=
    PromptFamily.generate_resource_report_prompt
      question context report_source report_format tone total_words language in
  let custom :=
    PromptFamily.generate_custom_report_prompt
      question context report_source report_format tone total_words language in
  let outline :=
    PromptFamily.generate_outline_report_prompt
      question context report_source report_format tone total_words language in
  (if String.eqb report_source ReportSource_Web_value then
     contains url_hyperlink_directive report = true
     /\ contains url_references_directive report = true
     /\ contains url_hyperlink_directive deep = true
     /\ contains url_references_directive deep = true
     /\ contains url_hyperlink_directive resource = true
   else
     contains document_references_directive report = true
     /\ contains document_references_directive deep = true
     /\ contains document_references_directive resource = true
     /\ (forallb (fun x => negb (contains url_hyperlink_directive x))
           [question; context; report_format; language; tone_text tone] = true ->
         contains url_hyperlink_directive report = false
         /\ contains url_hyperlink_directive deep = false))
  /\ (forall directive,
        In directive
          [url_hyperlink_directive; url_references_directive;
           document_references_directive] ->
        contains directive question = false ->
        contains directive context = false ->
        contains directive custom = false
        /\ contains directive outline = false).
Proof.
  intros report deep resource custom outline. split.
  - unfold report, deep, resource,
      PromptFamily.generate_report_prompt,
      PromptFamily.generate_deep_research_prompt,
      PromptFamily.generate_resource_report_prompt.
    cbv zeta.
    destruct (String.eqb report_source ReportSource_Web_value).
    + repeat split; find_part.
    + split; [find_part|]. split; [find_part|]. split; [find_part|].
      intros H. split_free H.
      split; (apply fstring_avoids;
              [ discriminate | vm_compute; reflexivity | url_free_fields ]).
  - intros directive Hin Hquestion Hcontext.
    pose proof (directive_free_int directive total_words Hin) as Hwords.
    unfold custom, outline,
      PromptFamily.generate_custom_report_prompt,
      PromptFamily.generate_outline_report_prompt.
    destruct Hin as [<- | [<- | [<- | []]]];
      (split; (apply fstring_avoids;
               [ discriminate
               | vm_compute; reflexivity
               | cbv [fields]; repeat constructor; assumption ])).
Qed.

Lemma reference_directive_by_report_source_witness :
  forallb (fun x => negb (contains url_hyperlink_directive x))
    [ "Is the store a sound acquisition?"; "Some context"; "apa"; "english";
      "objective" ] = true
  /\ contains document_references_directive
       (PromptFamily.generate_report_prompt
          "Is the store a sound acquisition?" "Some context" "documents" "apa"
          1000 (Some (mkTone "objective")) "english" sample_clock) = true
  /\ contains url_hyperlink_directive
       (PromptFamily.generate_report_prompt
          "Is the store a sound acquisition?" "Some context" "documents" "apa"
          1000 (Some (mkTone "objective")) "english" sample_clock) = false
  /\ contains url_references_directive
       (PromptFamily.generate_outline_report_prompt
          "Is the store a sound acquisition?" "Some context" "documents" "apa"
          (Some (mkTone "objective")) 1000 "english") = false.
Proof.
  split; [reflexivity|].
  pose proof (reference_directive_by_report_source
                "Is the store a sound acquisition?" "Some context" "documents"
                "apa" 1000 (Some (mkTone "objective")) "english" sample_clock)
    as H.
  cbv zeta in H. destruct H as [H Hnone].
  change (String.eqb "documents" ReportSource_Web_value) with false in H.
  cbv iota in H.
  destruct H as [Hdoc [_ [_ Hfree]]].
  split; [exact Hdoc|]. split; [apply Hfree; reflexivity|].
  refine (proj2 (Hnone url_references_directive _ _ _));
    [ simpl; auto | reflexivity | reflexivity ].
Defined.

(** ** Report-type resolution *)

Lemma resolve_research_report pf :
  get_prompt_by_report_type ReportType_ResearchReport_value pf
  = ret (ReportPromptGenerator (generate_report_prompt pf)).
Proof. reflexivity. Qed.

Lemma resolve_resource_report pf :
  get_prompt_by_report_type ReportType_ResourceReport_value pf
  = ret (ReportGenerator (generate_resource_report_prompt pf)).
Proof. reflexivity. Qed.

Lemma resolve_outline_report pf :
  get_prompt_by_report_type ReportType_OutlineReport_value pf
  = ret (ReportGenerator (generate_outline_report_prompt pf)).
Proof. reflexivity. Qed.

Lemma resolve_custom_report pf :
  get_prompt_by_report_type ReportType_CustomReport_value pf
  = ret (ReportGenerator (generate_custom_report_prompt pf)).
Proof. reflexivity. Qed.

Lemma resolve_subtopic_report pf :
  get_prompt_by_report_type ReportType_SubtopicReport_value pf
  = ret (SubtopicGenerator (generate_subtopic_report_prompt pf)).
Proof. reflexivity. Qed.

Lemma resolve_deep_research pf :
  get_prompt_by_report_type ReportType_DeepResearch_value pf
  = ret (ReportGenerator (generate_deep_research_prompt pf)).
Proof. reflexivity. Qed.

(** C2. For every report type that is not a key of the dispatch table and
    every prompt family, resolution does not raise, issues exactly one
    warning, and returns the method that resolution of the default
    identifier returns without warning: the family's
    [generate_report_prompt]. *)
Theorem unknown_report_type_falls_back (report_type : string) (pf : family) :
  dict_get report_type_mapping report_type = None ->
  outcome (get_prompt_by_report_type report_type pf)
    = inr (ReportPromptGenerator (generate_report_prompt pf))
  /\ outcome (get_prompt_by_report_type report_type pf)
     = outcome (get_prompt_by_report_type ReportType_ResearchReport_value pf)
  /\ warnings (get_prompt_by_report_type ReportType_ResearchReport_value pf) = []
  /\ exists message,
       warnings (get_prompt_by_report_type report_type pf) = [UserWarning message].
Proof.
  intros H. unfold get_prompt_by_report_type. rewrite H.
  change (getattr_or_None pf EmptyString) with (@None method).
  repeat split. eexists. reflexivity.
Qed.

Lemma unknown_report_type_falls_back_witness :
  dict_get report_type_mapping "bogus_type" = None
  /\ outcome (get_prompt_by_report_type "bogus_type" PromptFamily_methods)
     = outcome (get_prompt_by_report_type "research_report" PromptFamily_methods).
Proof.
  split; [reflexivity|].
  apply (unknown_report_type_falls_back "bogus_type" PromptFamily_methods).
  reflexivity.
Defined.

(** C3, counterexample. The generator resolved for the outline report
    type, invoked with sample arguments whose language is french, returns
    a text that does not hold the language. *)
Lemma outline_report_omits_language :
  exists g,
    get_prompt_by_report_type "outline_report" PromptFamily_methods
      = ret (ReportGenerator g)
    /\ contains "french"
         (g "Is the store a sound acquisition?" "Some context" "web" "apa"
            (Some (mkTone "objective")) 1000%Z "french" sample_clock) = false.
Proof. eexists. split; [reflexivity | vm_compute; reflexivity]. Qed.

Ltac nonempty_text := let H := fresh in intro H; discriminate H.

(** C3, as amended. For every key of the dispatch table, resolution on
    the base family issues no warning and returns a method. Each method
    is invoked with its own parameter list: [generate_report_prompt]
    takes the word count before the tone, the resource, outline, custom
    and deep-research generators take them in the order of
    [PROMPT_GENERATOR], the subtopic generator has a list of its own.
    For the research, resource and deep-research keys the returned text
    is not empty and holds the question and the language. For the outline
    and custom keys it is not empty and holds the question, and the
    language is accepted and not used: another language gives the same
    text. For the subtopic key it is not empty and holds the subtopic and
    the language. *)
Theorem dispatched_generator_embeds_question (report_type : string) :
  In report_type (dict_keys report_type_mapping) ->
  warnings (get_prompt_by_report_type report_type PromptFamily_methods) = []
  /\ match outcome (get_prompt_by_report_type report_type PromptFamily_methods) with
     | inr (ReportPromptGenerator g) =>
         forall question context report_source report_format total_words
                tone language clk,
           let prompt :=
             g question context report_source report_format total_words
               tone language clk in
           prompt <> EmptyString
           /\ contains question prompt = true
           /\ contains language prompt = true
     | inr (ReportGenerator g) =>
         forall question context report_source report_format tone
                total_words language clk,
           let prompt :=
             g question context report_source report_format tone
               total_words language clk in
           prompt <> EmptyString
           /\ contains question prompt = true
           /\ if String.eqb report_type ReportType_OutlineReport_value
                 || String.eqb report_type ReportType_CustomReport_value
              then
                forall other_language,
                  g question context report_source report_format tone
                    total_words other_language clk = prompt
              else contains language prompt = true
     | inr (SubtopicGenerator g) =>
         forall current_subtopic existing_headers relevant_written_contents
                main_topic context report_format max_subsections total_words
                tone language clk,
           let prompt :=
             g current_subtopic existing_headers relevant_written_contents
               main_topic context report_format max_subsections total_words
               tone language clk in
           prompt <> EmptyString
           /\ contains current_subtopic prompt = true
           /\ contains language prompt = true
     | inl _ => False
     end.
Proof.
  intros H. simpl in H.
  destruct H as [<- | [<- | [<- | [<- | [<- | [<- | []]]]]]].
  - rewrite resolve_research_report. split; [reflexivity|].
    cbn [outcome snd ret generate_report_prompt PromptFamily_methods].
    cbv zeta. intros. unfold PromptFamily.generate_report_prompt. cbv zeta.
    split; [nonempty_text|]. split; find_field.
  - rewrite resolve_resource_report. split; [reflexivity|].
    cbn [outcome snd ret generate_resource_report_prompt PromptFamily_methods].
    cbv zeta. intros. unfold PromptFamily.generate_resource_report_prompt. cbv zeta.
    split; [nonempty_text|]. split; [find_field|].
    change (String.eqb ReportType_ResourceReport_value ReportType_OutlineReport_value
            || String.eqb ReportType_ResourceReport_value ReportType_CustomReport_value)
      with false.
    cbv iota. find_field.
  - rewrite resolve_outline_report. split; [reflexivity|].
    cbn [outcome snd ret generate_outline_report_prompt PromptFamily_methods].
    cbv zeta. intros. unfold PromptFamily.generate_outline_report_prompt. cbv zeta.
    split; [nonempty_text|]. split; [find_field|].
    change (String.eqb ReportType_OutlineReport_value ReportType_OutlineReport_value
            || String.eqb ReportType_OutlineReport_value ReportType_CustomReport_value)
      with true.
    cbv iota. intros other_language. reflexivity.
  - rewrite resolve_custom_report. split; [reflexivity|].
    cbn [outcome snd ret generate_custom_report_prompt PromptFamily_methods].
    cbv zeta. intros. unfold PromptFamily.generate_custom_report_prompt. cbv zeta.
    split; [nonempty_text|]. split; [find_field|].
    change (String.eqb ReportType_CustomReport_value ReportType_OutlineReport_value
            || String.eqb ReportType_CustomReport_value ReportType_CustomReport_value)
      with true.
    cbv iota. intros other_language. reflexivity.
  - rewrite resolve_subtopic_report. split; [reflexivity|].
    cbn [outcome snd ret generate_subtopic_report_prompt PromptFamily_methods].
    cbv zeta. intros. unfold PromptFamily.generate_subtopic_report_prompt. cbv zeta.
    split; [nonempty_text|]. split; find_field.
  - rewrite resolve_deep_research. split; [reflexivity|].
    cbn [outcome snd ret generate_deep_research_prompt PromptFamily_methods].
    cbv zeta. intros. unfold PromptFamily.generate_deep_research_prompt. cbv zeta.
    split; [nonempty_text|]. split; [find_field|].
    change (String.eqb ReportType_DeepResearch_value ReportType_OutlineReport_value
            || String.eqb ReportType_DeepResearch_value ReportType_CustomReport_value)
      with false.
    cbv iota. find_field.
Qed.

Lemma dispatched_generator_embeds_question_witness :
  In "deep_research" (dict_keys report_type_mapping)
  /\ warnings (get_prompt_by_report_type "deep_research" PromptFamily_methods) = [].
Proof.
  assert (In "deep_research" (dict_keys report_type_mapping)) as H
    by (simpl; auto 10).
  split; [exact H|].
  apply (dispatched_generator_embeds_question "deep_research" H).
Defined.

(** ** The document listing *)

Lemma enumerate_filter_below (n : Z) (keep : nat * Document -> bool) :
  (forall i d, keep (i, d) = (Z.of_nat i <? n)%Z) ->
  forall (docs : list Document) (start : nat),
    map snd (filter keep (combine (seq start (List.length docs)) docs))
    = firstn (Z.to_nat (n - Z.of_nat start)) docs.
Proof.
  intros Hkeep. induction docs as [|d docs IH]; intros start.
  - simpl. rewrite firstn_nil. reflexivity.
  - simpl. specialize (IH (S start)). rewrite Hkeep.
    destruct (Z.of_nat start <? n)%Z eqn:E.
    + apply Z.ltb_lt in E. simpl. rewrite IH.
      replace (Z.to_nat (n - Z.of_nat start))
        with (S (Z.to_nat (n - Z.of_nat (S start)))) by lia.
      reflexivity.
    + apply Z.ltb_ge in E. rewrite IH.
      replace (Z.to_nat (n - Z.of_nat (S start))) with O by lia.
      replace (Z.to_nat (n - Z.of_nat start)) with O by lia.
      reflexivity.
Qed.

Lemma enumerate_filter_all (keep : nat * Document -> bool) :
  (forall i d, keep (i, d) = true) ->
  forall (docs : list Document) (start : nat),
    map snd (filter keep (combine (seq start (List.length docs)) docs)) = docs.
Proof.
  intros Hkeep. induction docs as [|d docs IH]; intros start; simpl; [reflexivity|].
  rewrite Hkeep. simpl. rewrite IH. reflexivity.
Qed.

Lemma firstn_min (docs : list Document) (n : Z) :
  firstn (Z.to_nat (Z.min n (Z.of_nat (List.length docs)))) docs
  = firstn (Z.to_nat n) docs.
Proof.
  destruct (Z.le_gt_cases n (Z.of_nat (List.length docs))) as [H|H].
  - rewrite Z.min_l by exact H. reflexivity.
  - rewrite Z.min_r by lia. rewrite Nat2Z.id.
    rewrite !firstn_all2 by lia. reflexivity.
Qed.

(** C10. For every list of documents and every [top_n], [pretty_print_docs]
    returns the line-break-joined rendering of the first
    [min(top_n, len(docs))] documents when [top_n] is an integer (none of
    them when it is not positive) and of all documents when it is [None],
    each rendered in input order as its source, title and content lines. *)
Theorem pretty_print_docs_lists_first_top_n (docs : list Document) (top_n : option Z) :
  PromptFamily.pretty_print_docs docs top_n = pretty_print_docs_spec docs top_n.
Proof.
  unfold PromptFamily.pretty_print_docs, pretty_print_docs_spec. f_equal.
  rewrite (map_ext _ (fun p => render_document (snd p)))
    by (intros [i d]; reflexivity).
  rewrite <- (map_map snd render_document). f_equal.
  destruct top_n as [n|].
  - rewrite firstn_min.
    rewrite (enumerate_filter_below n) by reflexivity.
    rewrite Z.sub_0_r. reflexivity.
  - apply enumerate_filter_all. reflexivity.
Qed.

Example pretty_print_docs_two_of_three :
  PromptFamily.pretty_print_docs
    [ mkDocument "first" [("source", "a.pdf"); ("title", "A")];
      mkDocument "second" [("source", "b.pdf")];
      mkDocument "third" [] ] (Some 2%Z)
  = f[ "Source: a.pdf"; nl; "Title: A"; nl; "Content: first"; nl; nl;
       "Source: b.pdf"; nl; "Title: None"; nl; "Content: second"; nl ].
Proof. vm_compute. reflexivity. Qed.

(** ** Determinism under a fixed date *)

Section Determinism.

Variable Dict : Type.
Variable json_dumps_indent2 : list Dict -> string.
Variable repr_list_dict : list Dict -> string.
Variable repr_list_str : list string -> string.
Variable ReportType_DetailedReport_value : string.

(** C8. For every method of the class and every argument tuple, two
    invocations under clock observations that agree on the local date
    and on the UTC date return the same text, whatever the time of day:
    the text is a function of the arguments and of the date. *)
Theorem generators_depend_on_date_only (c : call Dict) (clk1 clk2 : Clock) :
  date_today clk1 = date_today clk2 ->
  dt_date (datetime_now_utc clk1) = dt_date (datetime_now_utc clk2) ->
  run Dict json_dumps_indent2 repr_list_dict repr_list_str
    ReportType_DetailedReport_value c clk1
  = run Dict json_dumps_indent2 repr_list_dict repr_list_str
      ReportType_DetailedReport_value c clk2.
Proof.
  intros Htoday Hutc.
  destruct c; cbv [run]; try reflexivity.
  - unfold PromptFamily.generate_search_queries_prompt, strftime_B_d_Y.
    rewrite Hutc. reflexivity.
  - unfold PromptFamily.generate_report_prompt.
    rewrite Htoday. reflexivity.
  - unfold PromptFamily.generate_deep_research_prompt, strftime_B_d_Y.
    rewrite Hutc. reflexivity.
  - unfold PromptFamily.generate_subtopic_report_prompt, strftime_B_d_Y.
    rewrite Hutc. reflexivity.
  - unfold PromptFamily.generate_report_introduction, strftime_B_d_Y.
    rewrite Hutc. reflexivity.
Qed.

End Determinism.

Lemma generators_depend_on_date_only_witness :
  date_today sample_clock = date_today evening_clock
  /\ dt_date (datetime_now_utc sample_clock) = dt_date (datetime_now_utc evening_clock)
  /\ PromptFamily.generate_report_prompt
       "q" "c" "web" "apa" 1000 None "english" sample_clock
     = PromptFamily.generate_report_prompt
         "q" "c" "web" "apa" 1000 None "english" evening_clock.
Proof.
  split; [reflexivity|]. split; [reflexivity|].
  apply (generators_depend_on_date_only
           unit (fun _ => EmptyString) (fun _ => EmptyString) (fun _ => EmptyString)
           "detailed_report"
           (Call_generate_report_prompt unit "q" "c" "web" "apa" 1000 None "english")
           sample_clock evening_clock); reflexivity.
Defined.

(** ** Prompt-family resolution *)

Section FamilyResolution.

Variable Config : Type.
Variable PromptFamilyEnum_Default_value : string.

(** The registered name resolves to an instance that keeps the
    configuration, without warning. *)
Lemma default_family_name_resolves (name : PromptFamilyEnum + string) (config : Config) :
  family_key name = PromptFamilyEnum_Default_value ->
  get_prompt_family Config PromptFamilyEnum_Default_value name config = ret (mkPromptFamily Config PromptFamily_class config).
Proof.
  intros H. unfold get_prompt_family. fold (family_key name).
  rewrite H. simpl. rewrite String.eqb_refl. reflexivity.
Qed.

(** Any other name issues one warning and then raises: the fallback
    calls the class without the configuration that [__init__]
    requires. *)
Lemma unknown_family_name_raises (name : PromptFamilyEnum + string) (config : Config) :
  family_key name <> PromptFamilyEnum_Default_value ->
  (exists message, warnings (get_prompt_family Config PromptFamilyEnum_Default_value name config) = [UserWarning message])
  /\ outcome (get_prompt_family Config PromptFamilyEnum_Default_value name config)
     = inl (TypeError
         "PromptFamily.__init__() missing 1 required positional argument: 'config'").
Proof.
  intros H. unfold get_prompt_family. fold (family_key name).
  simpl. apply String.eqb_neq in H. rewrite H.
  split; [eexists|]; reflexivity.
Qed.

End FamilyResolution.

(** C1, on the code. Asked for the unregistered family name bogus, with a
    table whose only key is default, [get_prompt_family] issues its
    warning and then raises [TypeError] instead of returning an
    instance. *)
Theorem get_prompt_family_bogus_raises :
  get_prompt_family unit "default" (inr "bogus") tt
  = ( [ UserWarning
          f[ "Invalid prompt family: bogus."; nl;
             "Please use one of the following: default"; nl;
             "Using default prompt family: default prompt." ] ],
      inl (TypeError
        "PromptFamily.__init__() missing 1 required positional argument: 'config'") ).
Proof. vm_compute. reflexivity. Qed.

(** ** What the report generators return *)

Lemma starts_with_fstring_cons p n ps :
  starts_with n (fstring ps) = true ->
  starts_with (part_text p ++ n) (fstring (p :: ps)) = true.
Proof.
  rewrite !starts_with_iff. intros [r H].
  exists r. change (fstring (p :: ps)) with (part_text p ++ fstring ps).
  rewrite H, append_assoc. reflexivity.
Qed.

Lemma starts_with_fstring_last p ps :
  starts_with (part_text p) (fstring (p :: ps)) = true.
Proof. apply starts_with_app. Qed.

(** The opening of a template, part by part. *)
Ltac opens_with :=
  lazymatch goal with
  | |- starts_with (?a ++ ?n) (fstring (?p :: ?ps)) = true =>
      change (starts_with (part_text p ++ n) (fstring (p :: ps)) = true);
      apply starts_with_fstring_cons; opens_with
  | |- starts_with ?a (fstring (?p :: ?ps)) = true =>
      change (starts_with (part_text p) (fstring (p :: ps)) = true);
      apply starts_with_fstring_last
  end.

Section Returns.

Variable repr_list_str : list string -> string.

(** C9. For all text arguments, the empty text included, every integer
    word count and every tone of the declared kind (a member of [Tone],
    or [None] where it is the default), each report generator raises
    nothing and returns a prompt. The text is not checked: it is set as
    it comes into the opening of the prompt, which states the material
    between quotes and then the task with the question, between quotes
    too for all but the subtopic prompt. The custom prompt is the quoted
    context, an empty line and the query. The research prompt for
    selected tools opens with its task and the quoted query and lists
    the tool names. *)
Theorem report_generators_return_prompts
    (question context report_source report_format language : string)
    (tone : option Tone) (total_words : Z) (clk : Clock)
    (existing_headers relevant_written_contents main_topic : string)
    (max_subsections : Z) (subtopic_tone : Tone)
    (selected_tools : list Tool) :
  (exists prompt,
     Untyped.generate_report_prompt
       question context report_source report_format total_words
       (declared tone) language clk = inr prompt
     /\ prompt <> EmptyString
     /\ starts_with
          (nl ++ "Information: " ++ dq ++ context ++ dq ++ nl ++ "---" ++ nl
           ++ "You are a senior retail real estate acquisitions analyst following the rigorous methodology of a net lease REIT acquisition manager. Using the above information, generate a comprehensive acquisition due diligence report for: "
           ++ dq ++ question ++ dq)
          prompt = true)
  /\ (exists prompt,
       Untyped.generate_resource_report_prompt
         question context report_source report_format (declared tone)
         total_words language = inr prompt
       /\ prompt <> EmptyString
       /\ starts_with
            (dq ++ dq ++ dq ++ context ++ dq ++ dq ++ dq ++ nl ++ nl
             ++ "Based on the above information, generate a bibliography recommendation report for the following question or topic: "
             ++ dq ++ question ++ dq)
            prompt = true)
  /\ (exists prompt,
       Untyped.generate_outline_report_prompt
         question context report_source report_format (declared tone)
         total_words language = inr prompt
       /\ prompt <> EmptyString
       /\ starts_with
            (dq ++ dq ++ dq ++ context ++ dq ++ dq ++ dq
             ++ " Using the above information, generate an outline for a research report in Markdown syntax for the following question or topic: "
             ++ dq ++ question ++ dq)
            prompt = true)
  /\ (exists prompt,
       Untyped.generate_custom_report_prompt
         question context report_source report_format (declared tone)
         total_words language = inr prompt
       /\ prompt <> EmptyString
       /\ prompt = dq ++ context ++ dq ++ nl ++ nl ++ question)
  /\ (exists prompt,
       Untyped.generate_deep_research_prompt
         question context report_source report_format (declared tone)
         total_words language clk = inr prompt
       /\ prompt <> EmptyString
       /\ starts_with
            (nl
             ++ "Using the following hierarchically researched information and citations:"
             ++ nl ++ nl ++ dq ++ context ++ dq ++ nl ++ nl
             ++ "Write a comprehensive research report answering the query: "
             ++ dq ++ question ++ dq)
            prompt = true)
  /\ (exists prompt,
       Untyped.generate_subtopic_report_prompt
         question existing_headers relevant_written_contents main_topic
         context report_format max_subsections total_words
         (ToneMember subtopic_tone) language clk = inr prompt
       /\ prompt <> EmptyString
       /\ starts_with
            (nl ++ "Context:" ++ nl ++ dq ++ context ++ dq ++ nl ++ nl
             ++ "Main Topic and Subtopic:" ++ nl
             ++ "Using the latest information available, construct a detailed report on the subtopic: "
             ++ question ++ " under the main topic: " ++ main_topic ++ ".")
            prompt = true)
  /\ (let prompt :=
        PromptFamily.generate_mcp_research_prompt
          repr_list_str question selected_tools in
      prompt <> EmptyString
      /\ starts_with
           ("You are a research assistant with access to specialized tools. Your task is to research the following query and provide comprehensive, accurate information."
            ++ nl ++ nl ++ "RESEARCH QUERY: " ++ dq ++ question ++ dq)
           prompt = true
      /\ contains
           ("AVAILABLE TOOLS: "
            ++ repr_list_str (map display_name selected_tools) ++ nl)
           prompt = true).
Proof.
  split; [|split; [|split; [|split; [|split; [|split]]]]].
  - eexists. split; [destruct tone; reflexivity|].
    destruct tone; (split; [nonempty_text|]);
      unfold PromptFamily.generate_report_prompt; cbv zeta; opens_with.
  - eexists. split; [reflexivity|]. split; [nonempty_text|].
    unfold PromptFamily.generate_resource_report_prompt. cbv zeta. opens_with.
  - eexists. split; [reflexivity|]. split; [nonempty_text|].
    unfold PromptFamily.generate_outline_report_prompt. opens_with.
  - eexists. split; [reflexivity|]. split; [nonempty_text|].
    unfold PromptFamily.generate_custom_report_prompt.
    cbn [fstring part_text]. rewrite append_nil_r. reflexivity.
  - eexists. split; [destruct tone; reflexivity|].
    destruct tone; (split; [nonempty_text|]);
      unfold PromptFamily.generate_deep_research_prompt; cbv zeta; opens_with.
  - eexists. split; [reflexivity|]. split; [nonempty_text|].
    unfold PromptFamily.generate_subtopic_report_prompt. opens_with.
  - cbv zeta. unfold PromptFamily.generate_mcp_research_prompt. cbv zeta.
    change (fun tool : Tool =>
              match tool with
              | ToolWithName name => name
              | ToolOther text => text
              end) with display_name.
    split; [nonempty_text|]. split; [opens_with | find_span].
Qed.

End Returns.

(** A tone that is neither a member of [Tone] nor [None] is where a call
    can fail: a true object of another type, such as the text that
    [PROMPT_GENERATOR] declares, has no [value], and the research and the
    deep-research generators raise; the subtopic generator raises for
    [None] as well. A false object is taken for no tone. The resource,
    custom and outline generators accept any tone. *)
Lemma tone_of_another_kind
    (question context report_source report_format language : string)
    (total_words : Z) (clk : Clock)
    (existing_headers relevant_written_contents main_topic : string)
    (max_subsections : Z) (truth : bool) (type_name : string) :
  Untyped.generate_report_prompt
    question context report_source report_format total_words
    (ToneOther truth type_name) language clk
  = (if truth
     then inl (AttributeError ("'" ++ type_name ++ "' object has no attribute 'value'"))
     else Untyped.generate_report_prompt
            question context report_source report_format total_words
            ToneNone language clk)
  /\ Untyped.generate_deep_research_prompt
       question context report_source report_format
       (ToneOther truth type_name) total_words language clk
     = (if truth
        then inl (AttributeError ("'" ++ type_name ++ "' object has no attribute 'value'"))
        else Untyped.generate_deep_research_prompt
               question context report_source report_format ToneNone
               total_words language clk)
  /\ Untyped.generate_subtopic_report_prompt
       question existing_headers relevant_written_contents main_topic
       context report_format max_subsections total_words
       (ToneOther truth type_name) language clk
     = inl (AttributeError ("'" ++ type_name ++ "' object has no attribute 'value'"))
  /\ Untyped.generate_subtopic_report_prompt
       question existing_headers relevant_written_contents main_topic
       context report_format max_subsections total_words ToneNone language clk
     = inl (AttributeError "'NoneType' object has no attribute 'value'")
  /\ Untyped.generate_resource_report_prompt
       question context report_source report_format
       (ToneOther truth type_name) total_words language
     = Untyped.generate_resource_report_prompt
         question context report_source report_format ToneNone total_words
         language.
Proof. destruct truth; repeat split. Qed.

Example report_prompt_of_empty_texts :
  exists prompt,
    Untyped.generate_report_prompt
      EmptyString EmptyString "web" "apa" 1000 ToneNone "english" sample_clock
    = inr prompt
    /\ starts_with (nl ++ "Information: " ++ dq ++ dq ++ nl ++ "---") prompt = true.
Proof. eexists. split; [reflexivity | vm_compute; reflexivity]. Qed.

(** ** More on report-type resolution *)

Lemma dict_get_keys {V : Type} (d : dict V) (k : string) :
  dict_get d k <> None <-> In k (dict_keys d).
Proof.
  induction d as [|[k' v] d IH]; simpl.
  - split; [congruence | tauto].
  - destruct (String.eqb k k') eqn:E.
    + apply String.eqb_eq in E. subst. split; [auto | discriminate].
    + apply String.eqb_neq in E. rewrite IH. split; [auto|].
      intros [H|H]; [congruence | exact H].
Qed.

Lemma contains_join_In sep x xs :
  In x xs -> contains x (join sep xs) = true.
Proof.
  induction xs as [|y ys IH]; intros Hin; [destruct Hin|].
  destruct ys as [|z ys].
  - destruct Hin as [-> | []]. apply contains_refl.
  - change (join sep (y :: z :: ys)) with (y ++ sep ++ join sep (z :: ys)).
    destruct Hin as [-> | Hin].
    + apply contains_app_l, contains_refl.
    + apply contains_app_r, contains_app_r, IH, Hin.
Qed.

Lemma mapped_name_is_attribute (pf : family) (report_type name : string) :
  dict_get report_type_mapping report_type = Some name ->
  exists m, getattr_or_None pf name = Some m.
Proof.
  unfold report_type_mapping. simpl dict_get.
  repeat match goal with
         | |- context [String.eqb report_type ?k] =>
             destruct (String.eqb report_type k)
         end;
    intros H; inversion H; subst; eexists; reflexivity.
Qed.

(** X2. The method-name contract of the dispatch table: whatever the
    prompt family, every name that the table maps a report type to is an
    attribute that lookup finds on it. *)
Theorem report_type_mapping_names_methods
    (pf : family) (report_type name : string) :
  dict_get report_type_mapping report_type = Some name ->
  exists m, getattr_or_None pf name = Some m.
Proof.
  intros H. destruct (mapped_name_is_attribute pf report_type name H) as [m Hm].
  exists m. exact Hm.
Qed.

Lemma report_type_mapping_names_methods_witness :
  dict_get report_type_mapping "deep_research" = Some "generate_deep_research_prompt"
  /\ exists m, getattr_or_None PromptFamily_methods "generate_deep_research_prompt" = Some m.
Proof.
  split; [reflexivity|].
  apply (report_type_mapping_names_methods
           PromptFamily_methods "deep_research" "generate_deep_research_prompt").
  reflexivity.
Defined.

(** X1. Resolution of a report type never raises, whatever the identifier
    and the family: it returns a method, with no warning when the
    identifier is a key of the dispatch table and with exactly one
    otherwise. *)
Theorem get_prompt_by_report_type_never_raises (report_type : string) (pf : family) :
  (exists m, outcome (get_prompt_by_report_type report_type pf) = inr m)
  /\ (In report_type (dict_keys report_type_mapping) ->
      warnings (get_prompt_by_report_type report_type pf) = [])
  /\ (~ In report_type (dict_keys report_type_mapping) ->
      List.length (warnings (get_prompt_by_report_type report_type pf)) = 1%nat).
Proof.
  pose proof (dict_get_keys report_type_mapping report_type) as Hkeys.
  unfold get_prompt_by_report_type.
  destruct (dict_get report_type_mapping report_type) as [name|] eqn:E.
  - destruct (mapped_name_is_attribute pf report_type name E) as [m Hm].
    rewrite Hm. split; [exists m; reflexivity|]. split; [reflexivity|].
    intros Hnot. exfalso. apply Hnot, Hkeys. discriminate.
  - change (getattr_or_None pf EmptyString) with (@None method).
    split; [eexists; reflexivity|]. split; [|reflexivity].
    intros Hin. apply Hkeys in Hin. congruence.
Qed.

(** X3. The warning issued for an unknown report type names the offending
    identifier, every identifier of the dispatch table and the default
    that is used instead. *)
Theorem unknown_report_type_warning_text (report_type : string) (pf : family) :
  dict_get report_type_mapping report_type = None ->
  exists message,
    warnings (get_prompt_by_report_type report_type pf) = [UserWarning message]
    /\ contains ("Invalid report type: " ++ report_type ++ ".") message = true
    /\ (forall key, In key (dict_keys report_type_mapping) ->
        contains key message = true)
    /\ contains
         ("Using default report type: " ++ ReportType_ResearchReport_value ++ " prompt.")
         message = true.
Proof.
  intros H. unfold get_prompt_by_report_type. rewrite H.
  change (getattr_or_None pf EmptyString) with (@None method).
  eexists. split; [reflexivity|]. split; [|split].
  - find_span.
  - intros key Hin.
    apply (contains_trans _ (join ", " (dict_keys report_type_mapping))).
    + apply contains_join_In, Hin.
    + find_field.
  - find_span.
Qed.

Lemma unknown_report_type_warning_text_witness :
  dict_get report_type_mapping "bogus_type" = None
  /\ exists message,
       warnings (get_prompt_by_report_type "bogus_type" PromptFamily_methods)
         = [UserWarning message]
       /\ contains "Invalid report type: bogus_type." message = true.
Proof.
  split; [reflexivity|].
  destruct (unknown_report_type_warning_text "bogus_type" PromptFamily_methods eq_refl)
    as [message [Hw [Hname _]]].
  exists message. split; [exact Hw | exact Hname].
Defined.


Example research_report_takes_word_count_first :
  outcome (get_prompt_by_report_type "research_report" PromptFamily_methods)
  = inr (ReportPromptGenerator PromptFamily.generate_report_prompt).
Proof. reflexivity. Qed.

(** ** More on prompt-family resolution *)

Section FamilyResolutionMore.

Variable Config : Type.
Variable PromptFamilyEnum_Default_value : string.

(** X5. A registered family name, given as an enum member or as its text,
    resolves without warning to an instance of the registered class that
    holds the configuration it was given. *)
Theorem registered_family_keeps_config
    (name : PromptFamilyEnum + string) (config : Config) :
  family_key name = PromptFamilyEnum_Default_value ->
  warnings (get_prompt_family Config PromptFamilyEnum_Default_value name config) = []
  /\ exists instance,
       outcome (get_prompt_family Config PromptFamilyEnum_Default_value name config)
         = inr instance
       /\ cfg Config instance = config
       /\ class_of Config instance = PromptFamily_class.
Proof.
  intros H. unfold get_prompt_family. fold (family_key name).
  rewrite H. simpl. rewrite String.eqb_refl.
  split; [reflexivity|]. eexists. repeat split.
Qed.

(** X6. For every name that is not registered, enum member or text,
    resolution issues one warning, whose text names the offending family
    and the default one, and then raises [TypeError]: no instance is
    returned. *)
Theorem unregistered_family_warns_then_raises
    (name : PromptFamilyEnum + string) (config : Config) :
  family_key name <> PromptFamilyEnum_Default_value ->
  (exists message,
     warnings (get_prompt_family Config PromptFamilyEnum_Default_value name config)
       = [UserWarning message]
     /\ contains ("Invalid prompt family: " ++ family_key name ++ ".") message = true
     /\ contains
          ("Using default prompt family: " ++ PromptFamilyEnum_Default_value ++ " prompt.")
          message = true)
  /\ exists text,
       outcome (get_prompt_family Config PromptFamilyEnum_Default_value name config)
         = inl (TypeError text).
Proof.
  intros H. unfold get_prompt_family. fold (family_key name).
  simpl dict_get. apply String.eqb_neq in H. rewrite H.
  split.
  - eexists. split; [reflexivity|]. split; find_span.
  - eexists. reflexivity.
Qed.

End FamilyResolutionMore.

Lemma registered_family_keeps_config_witness :
  family_key (inl (mkPromptFamilyEnum "default")) = "default"
  /\ warnings (get_prompt_family nat "default" (inl (mkPromptFamilyEnum "default")) 7%nat) = [].
Proof.
  split; [reflexivity|].
  apply (registered_family_keeps_config nat "default"
           (inl (mkPromptFamilyEnum "default")) 7%nat).
  reflexivity.
Defined.

Lemma unregistered_family_warns_then_raises_witness :
  family_key (inr "granite") <> "default"
  /\ exists text,
       outcome (get_prompt_family nat "default" (inr "granite") 7%nat)
         = inl (TypeError text).
Proof.
  assert (family_key (inr "granite") <> "default") as H by discriminate.
  split; [exact H|].
  apply (unregistered_family_warns_then_raises nat "default" (inr "granite") 7%nat H).
Defined.

(** ** More on the document listing *)

Lemma join_app sep (xs ys : list string) :
  xs <> [] -> ys <> [] ->
  join sep (xs ++ ys) = join sep xs ++ sep ++ join sep ys.
Proof.
  induction xs as [|x xs IH]; intros Hx Hy; [congruence|].
  destruct xs as [|x' xs].
  - destruct ys as [|y ys]; [congruence|]. reflexivity.
  - change (join sep ((x :: x' :: xs) ++ ys))
      with (x ++ sep ++ join sep ((x' :: xs) ++ ys)).
    rewrite IH by (auto; discriminate).
    change (join sep (x :: x' :: xs)) with (x ++ sep ++ join sep (x' :: xs)).
    rewrite !append_assoc. reflexivity.
Qed.

Lemma pretty_print_docs_selected (docs : list Document) (top_n : option Z) :
  PromptFamily.pretty_print_docs docs top_n
  = join nl
      (map render_document
         match top_n with
         | None => docs
         | Some n => firstn (Z.to_nat n) docs
         end).
Proof.
  unfold PromptFamily.pretty_print_docs. f_equal.
  rewrite (map_ext _ (fun p => render_document (snd p)))
    by (intros [i d]; reflexivity).
  rewrite <- (map_map snd render_document). f_equal.
  destruct top_n as [n|].
  - rewrite (enumerate_filter_below n) by reflexivity.
    rewrite Z.sub_0_r. reflexivity.
  - apply enumerate_filter_all. reflexivity.
Qed.

(** X7. The listing is the empty text when there is no document and when
    [top_n] is zero or negative: a negative [top_n] selects nothing, it
    does not count from the end. *)
Theorem pretty_print_docs_of_nothing (docs : list Document) (top_n : option Z) (n : Z) :
  (n <= 0)%Z ->
  PromptFamily.pretty_print_docs [] top_n = EmptyString
  /\ PromptFamily.pretty_print_docs docs (Some n) = EmptyString.
Proof.
  intros Hn. rewrite !pretty_print_docs_selected. split.
  - destruct top_n; [rewrite firstn_nil|]; reflexivity.
  - replace (Z.to_nat n) with O by lia. reflexivity.
Qed.

Lemma pretty_print_docs_of_nothing_witness :
  (-1 <= 0)%Z
  /\ PromptFamily.pretty_print_docs
       [mkDocument "first" []; mkDocument "second" []] (Some (-1)%Z) = EmptyString.
Proof.
  split; [lia|].
  apply (pretty_print_docs_of_nothing
           [mkDocument "first" []; mkDocument "second" []] None (-1)%Z).
  lia.
Defined.

(** X8. A [top_n] that reaches the number of documents changes nothing:
    the listing equals the one without [top_n]. *)
Theorem pretty_print_docs_saturates (docs : list Document) (n : Z) :
  (Z.of_nat (List.length docs) <= n)%Z ->
  PromptFamily.pretty_print_docs docs (Some n)
  = PromptFamily.pretty_print_docs docs None.
Proof.
  intros Hn. rewrite !pretty_print_docs_selected.
  rewrite firstn_all2 by lia. reflexivity.
Qed.

Lemma pretty_print_docs_saturates_witness :
  (Z.of_nat (List.length [mkDocument "first" []; mkDocument "second" []]) <= 5)%Z
  /\ PromptFamily.pretty_print_docs
       [mkDocument "first" []; mkDocument "second" []] (Some 5%Z)
     = PromptFamily.pretty_print_docs
         [mkDocument "first" []; mkDocument "second" []] None.
Proof.
  split; [simpl; lia|].
  apply (pretty_print_docs_saturates
           [mkDocument "first" []; mkDocument "second" []] 5%Z).
  simpl. lia.
Defined.

(** X9. Listings compose: the listing of two non-empty lists of documents
    put end to end is the listing of the first, a line break, and the
    listing of the second. *)
Theorem pretty_print_docs_app (docs1 docs2 : list Document) :
  docs1 <> [] -> docs2 <> [] ->
  PromptFamily.pretty_print_docs (docs1 ++ docs2) None
  = PromptFamily.pretty_print_docs docs1 None ++ nl
    ++ PromptFamily.pretty_print_docs docs2 None.
Proof.
  intros H1 H2. rewrite !pretty_print_docs_selected.
  rewrite map_app. apply join_app.
  - destruct docs1; [congruence | discriminate].
  - destruct docs2; [congruence | discriminate].
Qed.

Lemma pretty_print_docs_app_witness :
  [mkDocument "first" []] <> [] /\ [mkDocument "second" []] <> []
  /\ PromptFamily.pretty_print_docs
       ([mkDocument "first" []] ++ [mkDocument "second" []]) None
     = PromptFamily.pretty_print_docs [mkDocument "first" []] None ++ nl
       ++ PromptFamily.pretty_print_docs [mkDocument "second" []] None.
Proof.
  split; [discriminate|]. split; [discriminate|].
  apply (pretty_print_docs_app [mkDocument "first" []] [mkDocument "second" []]);
    discriminate.
Defined.

(** X10. Metadata keys that a document lacks are listed as the word None:
    a document without source and title opens the listing with the lines
    "Source: None" and "Title: None". *)
Theorem pretty_print_docs_missing_metadata
    (d : Document) (docs : list Document) :
  dict_get (metadata d) "source" = None ->
  dict_get (metadata d) "title" = None ->
  starts_with
    ("Source: None" ++ nl ++ "Title: None" ++ nl ++ "Content: " ++ page_content d ++ nl)
    (PromptFamily.pretty_print_docs (d :: docs) None) = true.
Proof.
  intros Hs Ht. rewrite pretty_print_docs_selected. simpl map.
  apply starts_with_iff.
  assert (render_document d
          = "Source: None" ++ nl ++ "Title: None" ++ nl ++ "Content: "
            ++ page_content d ++ nl) as Hr.
  { unfold render_document. rewrite Hs, Ht. reflexivity. }
  destruct (map render_document docs) as [|r rs] eqn:E.
  - exists EmptyString. simpl join. rewrite Hr, append_nil_r. reflexivity.
  - exists (nl ++ join nl (r :: rs)).
    change (join nl (render_document d :: r :: rs))
      with (render_document d ++ nl ++ join nl (r :: rs)).
    rewrite Hr, !append_assoc. reflexivity.
Qed.

Lemma pretty_print_docs_missing_metadata_witness :
  dict_get (metadata (mkDocument "text" [])) "source" = None
  /\ dict_get (metadata (mkDocument "text" [])) "title" = None
  /\ starts_with
       ("Source: None" ++ nl ++ "Title: None" ++ nl ++ "Content: text" ++ nl)
       (PromptFamily.pretty_print_docs
          [mkDocument "text" []; mkDocument "more" [("source", "a.pdf")]] None)
     = true.
Proof.
  split; [reflexivity|]. split; [reflexivity|].
  apply (pretty_print_docs_missing_metadata
           (mkDocument "text" []) [mkDocument "more" [("source", "a.pdf")]]);
    reflexivity.
Defined.

(** ** The search-queries prompt *)

Lemma fstring_three a b c :
  fstring [Field a; Const b; Field c] = a ++ b ++ c.
Proof. simpl. rewrite append_nil_r. reflexivity. Qed.

Lemma range_empty (n : Z) : (n <= 0)%Z -> range n = [].
Proof. intros H. unfold range. replace (Z.to_nat n) with O by lia. reflexivity. Qed.

Lemma range_In (n k : Z) : (0 <= k < n)%Z -> In k (range n).
Proof.
  intros H. unfold range.
  replace k with (Z.of_nat (Z.to_nat k)) by lia.
  apply in_map, in_seq. lia.
Qed.

(** Look inside a field that is itself an f-string. *)
Ltac find_nested_span :=
  lazymatch goal with
  | |- contains _ (fstring (Field (fstring ?ps) :: _)) = true =>
      apply contains_fstring_here;
      change (part_text (Field (fstring ps))) with (fstring ps); find_span
  | |- contains _ (fstring (_ :: _)) = true =>
      apply contains_fstring_skip; find_nested_span
  end.

Section SearchQueries.

Variable Dict : Type.
Variable repr_list_dict : list Dict -> string.
Variable ReportType_DetailedReport_value : string.

(** X11. The task of the search-queries prompt: for the detailed and the
    subtopic report types it is the parent query, a dash and the question;
    for every other report type it is the question alone, and the parent
    query then has no effect on the prompt. In both cases the task is
    quoted in the prompt. *)
Theorem search_queries_task
    (question parent_query report_type : string) (max_iterations : Z)
    (context : list Dict) (clk : Clock) :
  let prompt parent :=
    PromptFamily.generate_search_queries_prompt
      Dict repr_list_dict ReportType_DetailedReport_value
      question parent report_type max_iterations context clk in
  if String.eqb report_type ReportType_DetailedReport_value
     || String.eqb report_type ReportType_SubtopicReport_value
  then
    contains (dq ++ (parent_query ++ " - " ++ question) ++ dq)
      (prompt parent_query) = true
  else
    contains (dq ++ question ++ dq) (prompt parent_query) = true
    /\ forall other_parent, prompt other_parent = prompt parent_query.
Proof.
  intros prompt. unfold prompt, PromptFamily.generate_search_queries_prompt.
  cbv zeta.
  destruct (String.eqb report_type ReportType_DetailedReport_value
            || String.eqb report_type ReportType_SubtopicReport_value).
  - rewrite fstring_three. find_span.
  - split; [find_span | reflexivity].
Qed.

(** X12. The answer format of the search-queries prompt shows one example
    per requested query, numbered from 1: for every [k] between 1 and
    [max_iterations] the quoted entry query k is there; when
    [max_iterations] is zero or negative the example list is empty. *)
Theorem search_queries_examples
    (question parent_query report_type : string) (max_iterations : Z)
    (context : list Dict) (clk : Clock) :
  let prompt :=
    PromptFamily.generate_search_queries_prompt
      Dict repr_list_dict ReportType_DetailedReport_value
      question parent_query report_type max_iterations context clk in
  (forall k, (1 <= k <= max_iterations)%Z ->
     contains (dq ++ "query " ++ str k ++ dq) prompt = true)
  /\ ((max_iterations <= 0)%Z ->
      contains "in the following format: []." prompt = true).
Proof.
  intros prompt. unfold prompt, PromptFamily.generate_search_queries_prompt.
  cbv zeta. split.
  - intros k Hk.
    lazymatch goal with
    | |- context [Field (join ", " ?items)] =>
        apply (contains_trans _ (join ", " items)); [|find_field]
    end.
    apply (contains_trans _ ((dq ++ "query " ++ str k ++ dq) ++ EmptyString)).
    + apply contains_app_l, contains_refl.
    + apply contains_join_In. apply in_map_iff. exists (k - 1)%Z. split.
      * replace (k - 1 + 1)%Z with k by lia.
        rewrite append_nil_r. reflexivity.
      * apply range_In. lia.
  - intros Hn. rewrite (range_empty _ Hn).
    lazymatch goal with
    | |- context [Field (join ", " (map ?f []))] =>
        change (join ", " (map f [])) with EmptyString
    end.
    change "in the following format: []."
      with ("in the following format: [" ++ EmptyString ++ "].").
    find_span.
Qed.

(** X13. A non-empty search context is serialized after the word Context
    in the prompt; an empty one is not serialized at all, so the prompt is
    then the same whatever the serializer. *)
Theorem search_queries_context
    (question parent_query report_type : string) (max_iterations : Z)
    (context : list Dict) (clk : Clock) :
  match context with
  | _ :: _ =>
      contains ("Context: " ++ repr_list_dict context ++ nl)
        (PromptFamily.generate_search_queries_prompt
           Dict repr_list_dict ReportType_DetailedReport_value
           question parent_query report_type max_iterations context clk) = true
  | [] =>
      forall other_repr : list Dict -> string,
        PromptFamily.generate_search_queries_prompt
          Dict other_repr ReportType_DetailedReport_value
          question parent_query report_type max_iterations [] clk
        = PromptFamily.generate_search_queries_prompt
            Dict repr_list_dict ReportType_DetailedReport_value
            question parent_query report_type max_iterations [] clk
  end.
Proof.
  destruct context as [|d context]; [reflexivity|].
  unfold PromptFamily.generate_search_queries_prompt. cbv zeta iota.
  find_nested_span.
Qed.

End SearchQueries.

Lemma search_queries_examples_witness :
  (1 <= 3 <= 3)%Z
  /\ contains (dq ++ "query " ++ str 3%Z ++ dq)
       (PromptFamily.generate_search_queries_prompt
          unit (fun _ => EmptyString) "detailed_report"
          "Is the store a sound acquisition?" "Parent" "research_report" 3 []
          sample_clock) = true.
Proof.
  split; [lia|].
  refine (proj1 (search_queries_examples
                   unit (fun _ => EmptyString) "detailed_report"
                   "Is the store a sound acquisition?" "Parent" "research_report"
                   3 [] sample_clock) 3%Z _).
  lia.
Defined.

(** ** The research prompt for selected tools *)

Section SelectedTools.

Variable repr_list_str : list string -> string.

(** X19. The research prompt depends on the selected tools only through
    the names they are listed under: two selections with the same names in
    the same order, whether given as objects with a name or as plain
    texts, give the same prompt. *)
Theorem mcp_research_prompt_by_names
    (query : string) (tools1 tools2 : list Tool) :
  map display_name tools1 = map display_name tools2 ->
  PromptFamily.generate_mcp_research_prompt repr_list_str query tools1
  = PromptFamily.generate_mcp_research_prompt repr_list_str query tools2.
Proof.
  intros H. unfold PromptFamily.generate_mcp_research_prompt. cbv zeta.
  change (fun tool : Tool =>
            match tool with
            | ToolWithName name => name
            | ToolOther text => text
            end) with display_name.
  rewrite H. reflexivity.
Qed.

End SelectedTools.

Lemma mcp_research_prompt_by_names_witness :
  map display_name [ToolWithName "search"; ToolOther "fetch"]
    = map display_name [ToolOther "search"; ToolWithName "fetch"]
  /\ PromptFamily.generate_mcp_research_prompt
       (join ", ") "q" [ToolWithName "search"; ToolOther "fetch"]
     = PromptFamily.generate_mcp_research_prompt
         (join ", ") "q" [ToolOther "search"; ToolWithName "fetch"].
Proof.
  split; [reflexivity|].
  apply (mcp_research_prompt_by_names (join ", ") "q"
           [ToolWithName "search"; ToolOther "fetch"]
           [ToolOther "search"; ToolWithName "fetch"]).
  reflexivity.
Defined.

(** ** The tone directive *)

Lemma tone_opening_free_int (z : Z) :
  contains tone_directive_opening (str z) = false.
Proof. apply (free_str_int _ "W"%char). reflexivity. Qed.

Lemma tone_opening_free_date (d : date) :
  contains tone_directive_opening (str d) = false.
Proof. apply (free_str_date _ "W"%char). reflexivity. Qed.

Lemma tone_opening_free_strftime dt :
  contains tone_directive_opening (strftime_B_d_Y dt) = false.
Proof. apply (free_strftime _ "W"%char); reflexivity. Qed.

Ltac tone_free_fields :=
  cbv [fields];
  repeat (apply Forall_cons; [|]); try apply Forall_nil;
  try assumption;
  first [ apply tone_opening_free_int
        | apply tone_opening_free_date
        | apply tone_opening_free_strftime
        | reflexivity
        | match goal with
          | |- contains _ (if ?b then _ else _) = false =>
              destruct b; vm_compute; reflexivity
          end ].

(** X14. The research-report and deep-research prompts ask for a tone
    only when one is given: with a tone they hold the sentence that names
    its value; without one they hold no tone sentence (unless a text
    supplied by the caller brings its opening words). *)
Theorem tone_directive_only_with_tone
    (question context report_source report_format : string)
    (total_words : Z) (tone : option Tone) (language : string) (clk : Clock) :
  let report :=
    PromptFamily.generate_report_prompt
      question context report_source report_format total_words tone language clk in
  let deep :=
    PromptFamily.generate_deep_research_prompt
      question context report_source report_format tone total_words language clk in
  match tone with
  | Some t =>
      contains ("Write the report in a " ++ Tone_value t ++ " tone.") report = true
      /\ contains ("Write the report in a " ++ Tone_value t ++ " tone.") deep = true
  | None =>
      forallb (fun x => negb (contains tone_directive_opening x))
        [question; context; report_format; language] = true ->
      contains tone_directive_opening report = false
      /\ contains tone_directive_opening deep = false
  end.
Proof.
  intros report deep.
  unfold report, deep, PromptFamily.generate_report_prompt,
    PromptFamily.generate_deep_research_prompt.
  cbv zeta. destruct tone as [t|]; cbv iota.
  - split; find_nested_span.
  - intros H. split_free H.
    split; (apply fstring_avoids;
            [ discriminate | vm_compute; reflexivity | tone_free_fields ]).
Qed.

Lemma tone_directive_only_with_tone_witness :
  forallb (fun x => negb (contains tone_directive_opening x))
    [ "Is the store a sound acquisition?"; "Some context"; "apa"; "english" ] = true
  /\ contains tone_directive_opening
       (PromptFamily.generate_report_prompt
          "Is the store a sound acquisition?" "Some context" "web" "apa"
          1000 None "english" sample_clock) = false.
Proof.
  split; [reflexivity|].
  refine (proj1 (tone_directive_only_with_tone
                   "Is the store a sound acquisition?" "Some context" "web" "apa"
                   1000 None "english" sample_clock _)).
  reflexivity.
Defined.

(** ** Length and structure directives *)

(** X15. Every generator that takes a minimum word count, except the
    custom one, states it: the decimal rendering of [total_words] stands
    in the sentence that sets the minimum length. *)
Theorem generators_state_total_words
    (question context report_source report_format language : string)
    (tone : option Tone) (total_words : Z) (clk : Clock)
    (existing_headers relevant_written_contents main_topic : string)
    (max_subsections : Z) (subtopic_tone : Tone) :
  contains ("with at least " ++ str total_words ++ " words.")
    (PromptFamily.generate_report_prompt
       question context report_source report_format total_words tone language clk)
    = true
  /\ contains ("minimum length of " ++ str total_words ++ " words.")
       (PromptFamily.generate_resource_report_prompt
          question context report_source report_format tone total_words language)
     = true
  /\ contains ("a minimum of " ++ str total_words ++ " words.")
       (PromptFamily.generate_outline_report_prompt
          question context report_source report_format tone total_words language)
     = true
  /\ contains ("Have a minimum length of " ++ str total_words ++ " words")
       (PromptFamily.generate_deep_research_prompt
          question context report_source report_format tone total_words language clk)
     = true
  /\ contains ("minimum length of " ++ str total_words ++ " words.")
       (PromptFamily.generate_subtopic_report_prompt
          question existing_headers relevant_written_contents main_topic context
          report_format max_subsections total_words subtopic_tone language clk)
     = true.
Proof.
  unfold PromptFamily.generate_report_prompt,
    PromptFamily.generate_resource_report_prompt,
    PromptFamily.generate_outline_report_prompt,
    PromptFamily.generate_deep_research_prompt,
    PromptFamily.generate_subtopic_report_prompt.
  cbv zeta. repeat split; find_span.
Qed.

(** X16. The subtopic prompt caps the number of subsections at
    [max_subsections], names the tone by its value, and holds the
    existing headers, the written contents, the main topic and the
    context verbatim. For a report format written in ASCII it names the
    citation format in upper case. *)
Theorem subtopic_report_states_its_limits
    (current_subtopic existing_headers relevant_written_contents : string)
    (main_topic context report_format : string)
    (max_subsections total_words : Z) (tone : Tone) (language : string)
    (clk : Clock) :
  let prompt :=
    PromptFamily.generate_subtopic_report_prompt
      current_subtopic existing_headers relevant_written_contents
      main_topic context report_format max_subsections total_words tone
      language clk in
  contains ("to a maximum of " ++ str max_subsections ++ ".") prompt = true
  /\ (is_ascii report_format = true ->
      contains ("follow the " ++ upper report_format ++ " format.") prompt = true)
  /\ contains ("Use an " ++ Tone_value tone ++ " tone throughout the report.") prompt = true
  /\ contains existing_headers prompt = true
  /\ contains relevant_written_contents prompt = true
  /\ contains (" under the main topic: " ++ main_topic ++ ".") prompt = true
  /\ contains (dq ++ context ++ dq) prompt = true.
Proof.
  intros prompt. unfold prompt, PromptFamily.generate_subtopic_report_prompt.
  split; [find_span|]. split; [intros _; find_span|].
  repeat split; first [ find_span | find_field ].
Qed.

Lemma subtopic_report_states_its_limits_witness :
  is_ascii "apa" = true
  /\ contains ("follow the " ++ upper "apa" ++ " format.")
       (PromptFamily.generate_subtopic_report_prompt
          "Lease terms" "['Tenant']" "['Rent roll']" "Store acquisition"
          "Some context" "apa" 5 800 (mkTone "objective") "english"
          sample_clock) = true.
Proof.
  split; [reflexivity|].
  pose proof (subtopic_report_states_its_limits
                "Lease terms" "['Tenant']" "['Rent roll']" "Store acquisition"
                "Some context" "apa" 5 800 (mkTone "objective") "english"
                sample_clock) as H.
  cbv zeta in H. destruct H as [_ [H _]]. apply H. reflexivity.
Defined.

(** ** The citation format is read without regard to case *)

Lemma upper_char_idempotent c : upper_char (upper_char c) = upper_char c.
Proof. destruct c as [[] [] [] [] [] [] [] []]; reflexivity. Qed.

Lemma upper_idempotent s : upper (upper s) = upper s.
Proof.
  induction s as [|c s IH]; simpl; [reflexivity|].
  rewrite upper_char_idempotent, IH. reflexivity.
Qed.

(** X17. The subtopic, introduction and conclusion prompts read the
    citation format without regard to letter case: upper-casing
    [report_format] beforehand changes nothing. *)
Theorem report_format_case_is_ignored
    (current_subtopic existing_headers relevant_written_contents : string)
    (main_topic context report_format : string)
    (max_subsections total_words : Z) (tone : Tone) (language : string)
    (question research_summary query report_content : string) (clk : Clock) :
  PromptFamily.generate_subtopic_report_prompt
    current_subtopic existing_headers relevant_written_contents
    main_topic context (upper report_format) max_subsections total_words tone
    language clk
  = PromptFamily.generate_subtopic_report_prompt
      current_subtopic existing_headers relevant_written_contents
      main_topic context report_format max_subsections total_words tone
      language clk
  /\ PromptFamily.generate_report_introduction
       question research_summary language (upper report_format) clk
     = PromptFamily.generate_report_introduction
         question research_summary language report_format clk
  /\ PromptFamily.generate_report_conclusion
       query report_content language (upper report_format)
     = PromptFamily.generate_report_conclusion
         query report_content language report_format.
Proof.
  unfold PromptFamily.generate_subtopic_report_prompt,
    PromptFamily.generate_report_introduction,
    PromptFamily.generate_report_conclusion.
  cbv zeta. rewrite !upper_idempotent. repeat split.
Qed.

(** ** Joining local and web context *)

Lemma append_cancel_l p : forall a b, p ++ a = p ++ b -> a = b.
Proof.
  induction p as [|c p IH]; intros a b H; simpl in H; [exact H|].
  injection H as H. apply IH, H.
Qed.

Lemma length_append a b :
  String.length (a ++ b) = (String.length a + String.length b)%nat.
Proof. induction a as [|c a IH]; simpl; [reflexivity | rewrite IH; reflexivity]. Qed.

Lemma join_local_web_documents_shape (docs_context web_context : string) :
  PromptFamily.join_local_web_documents docs_context web_context
  = "Context from local documents: " ++ docs_context
    ++ web_context_separator ++ web_context.
Proof.
  unfold PromptFamily.join_local_web_documents, web_context_separator.
  simpl fstring. rewrite append_nil_r, !append_assoc. reflexivity.
Qed.

(** The separator has no proper end that is also a beginning of it. *)
Lemma web_context_separator_unbordered m k j :
  m <> EmptyString -> k <> EmptyString ->
  web_context_separator = m ++ k -> web_context_separator = k ++ j -> False.
Proof.
  intros Hm Hk H1 H2.
  assert (any_tail (fun t => starts_with t web_context_separator)
            (nl ++ "Context from web sources: ") = false) as Hb
    by (vm_compute; reflexivity).
  destruct m as [|c m]; [congruence|].
  assert (nl ++ "Context from web sources: " = m ++ k) as Ht.
  { unfold web_context_separator in H1. simpl in H1. injection H1 as _ H1. exact H1. }
  rewrite Ht in Hb. rewrite any_tail_intro in Hb; [discriminate | exact Hk |].
  apply starts_with_iff. exists j. exact H2.
Qed.

Lemma separator_starts_once d m w w' :
  contains web_context_separator (d ++ m) = false ->
  web_context_separator ++ w = m ++ web_context_separator ++ w' ->
  m = EmptyString.
Proof.
  intros Hfree H.
  destruct m as [|c m]; [reflexivity|]. exfalso.
  apply contains_false_iff in Hfree.
  destruct (append_eq_append _ _ _ _ H) as [[k [Hm _]]|[k [Hsep Hrest]]].
  - apply Hfree. exists d, k. rewrite Hm. reflexivity.
  - destruct k as [|x k].
    + apply Hfree. exists d, EmptyString.
      rewrite append_nil_r in Hsep. rewrite Hsep, append_nil_r. reflexivity.
    + destruct (append_eq_append _ _ _ _ Hrest) as [[j [Hk _]]|[j [Hsep2 _]]].
      * apply (f_equal String.length) in Hsep. rewrite Hk in Hsep.
        rewrite !length_append in Hsep. simpl in Hsep. lia.
      * apply (web_context_separator_unbordered (String c m) (String x k) j);
          [discriminate | discriminate | exact Hsep | exact Hsep2].
Qed.

(** X18. The joined context can be taken apart again: when the local
    context does not hold the separator that introduces the web context,
    the joined text determines both contexts. *)
Theorem join_local_web_documents_injective
    (docs_context web_context docs_context' web_context' : string) :
  contains web_context_separator docs_context = false ->
  contains web_context_separator docs_context' = false ->
  PromptFamily.join_local_web_documents docs_context web_context
    = PromptFamily.join_local_web_documents docs_context' web_context' ->
  docs_context = docs_context' /\ web_context = web_context'.
Proof.
  intros Hd Hd' H. rewrite !join_local_web_documents_shape in H.
  apply append_cancel_l in H.
  destruct (append_eq_append _ _ _ _ H) as [[m [Hm Hrest]]|[m [Hm Hrest]]].
  - assert (m = EmptyString) as ->.
    { apply (separator_starts_once docs_context m web_context web_context').
      - rewrite <- Hm. exact Hd'.
      - exact Hrest. }
    rewrite append_nil_r in Hm.
    split; [congruence|].
    exact (append_cancel_l web_context_separator web_context web_context' Hrest).
  - assert (m = EmptyString) as ->.
    { apply (separator_starts_once docs_context' m web_context' web_context).
      - rewrite <- Hm. exact Hd.
      - exact Hrest. }
    rewrite append_nil_r in Hm.
    split; [congruence|]. symmetry.
    exact (append_cancel_l web_context_separator web_context' web_context Hrest).
Qed.

Lemma join_local_web_documents_injective_witness :
  contains web_context_separator "lease abstract" = false
  /\ PromptFamily.join_local_web_documents "lease abstract" "press release"
     = PromptFamily.join_local_web_documents "lease abstract" "press release"
  /\ "press release" = "press release".
Proof.
  split; [reflexivity|]. split; [reflexivity|].
  apply (join_local_web_documents_injective
           "lease abstract" "press release" "lease abstract" "press release");
    reflexivity.
Defined.

(** X20. The summary prompt and the introduction prompt put the material
    first: the text to summarize, respectively the research summary, is
    the very beginning of the prompt, and the instructions follow it. *)
Theorem material_comes_first
    (query data question research_summary language report_format : string)
    (clk : Clock) :
  starts_with (data ++ nl ++ " Using the above text")
    (PromptFamily.generate_summary_prompt query data) = true
  /\ starts_with (research_summary ++ nl ++ nl ++ "Using the above latest information")
       (PromptFamily.generate_report_introduction
          question research_summary language report_format clk) = true.
Proof.
  unfold PromptFamily.generate_summary_prompt,
    PromptFamily.generate_report_introduction.
  split; apply starts_with_iff; eexists; simpl fstring;
    rewrite ?append_assoc; reflexivity.
Qed.

(** ** Arguments of the remaining builders *)

(** X21. The source-curation, draft-titles, introduction and conclusion
    prompts hold each text they are given verbatim, in its place: the
    query quoted and the sources on lines of their own; the context
    quoted, the subtopic and the main topic; the topic and the language;
    the research task, the report and the language. The draft-titles
    prompt never mentions [max_subsections]: changing it changes
    nothing. *)
Theorem helper_prompts_hold_their_arguments
    (query sources : string) (max_results : Z)
    (current_subtopic main_topic context : string) (max_subsections : Z)
    (question research_summary language report_format report_content : string)
    (clk : Clock) :
  let curated := PromptFamily.curate_sources query sources max_results in
  let titles m :=
    PromptFamily.generate_draft_titles_prompt current_subtopic main_topic context m in
  let introduction :=
    PromptFamily.generate_report_introduction
      question research_summary language report_format clk in
  let conclusion :=
    PromptFamily.generate_report_conclusion
      query report_content language report_format in
  (contains (dq ++ query ++ dq) curated = true
   /\ contains (nl ++ sources ++ nl) curated = true)
  /\ (contains (dq ++ context ++ dq) (titles max_subsections) = true
      /\ contains
           ("on the subtopic: " ++ current_subtopic ++ " under the main topic: ")
           (titles max_subsections) = true
      /\ contains (" under the main topic: " ++ main_topic ++ ".")
           (titles max_subsections) = true
      /\ forall other_max, titles other_max = titles max_subsections)
  /\ (contains ("on the topic -- " ++ question ++ ".") introduction = true
      /\ contains ("The output must be in " ++ language ++ " language.")
           introduction = true)
  /\ (contains ("Research task: " ++ query ++ nl) conclusion = true
      /\ contains ("Research Report: " ++ report_content ++ nl) conclusion = true
      /\ contains ("MUST be written in " ++ language ++ " language.")
           conclusion = true).
Proof.
  intros curated titles introduction conclusion.
  unfold curated, titles, introduction, conclusion,
    PromptFamily.curate_sources, PromptFamily.generate_draft_titles_prompt,
    PromptFamily.generate_report_introduction,
    PromptFamily.generate_report_conclusion.
  cbv zeta.
  repeat split; find_span.
Qed.
